(** * To-Do-App: the persistence layer and the priority helpers of the
    presentation layer, embedded from [To-Do-App.py].

    The task table of [todo.db] is a list of rows in rowid order together
    with the AUTOINCREMENT counter.  Every database function of the source
    opens its own connection, runs one statement and commits; here such a
    function maps a store to an outcome (a value or a raised exception).

    Text is a [string] of 8-bit characters.  A dynamically typed Python value
    that reaches the store or comes back from it is a [value]: [None], an
    [int] or a [str].  Integers are those of Python ([Z]); the 64 bits of an
    SQLite INTEGER are not modelled.

    The window of [ToDoApp] is a record of what its handlers read and write;
    a handler is a function on that record that may end with an exception,
    and the user is a list of events. *)

From Stdlib Require Import ZArith List Bool Lia String Ascii.
From Stdlib Require Import Sorted Permutation DecimalString DecimalPos.
Import ListNotations.

Open Scope Z_scope.

(** ** Python values and exceptions *)

Inductive value : Type :=
| Null
| Int (z : Z)
| Text (s : string).

Record exn : Type := mkExn { exn_class : string; exn_text : string }.

Inductive outcome (A : Type) : Type :=
| Returns (a : A)
| Raises (e : exn).

Arguments Returns {A} a.
Arguments Raises {A} e.

Definition bind {A B : Type} (c : outcome A) (k : A -> outcome B) : outcome B :=
  match c with
  | Returns a => k a
  | Raises e => Raises e
  end.

Notation "x <- c ;; k" := (bind c (fun x => k))
  (at level 61, c at next level, right associativity).

(** [str(n)] for an integer. *)
Definition str_int (z : Z) : string := NilZero.string_of_int (Z.to_int z).

(** Truth value of a Python object, as [if x:] and [x if x else None] use it. *)
Definition truthy (v : value) : bool :=
  match v with
  | Null => false
  | Int z => negb (z =? 0)
  | Text s => negb (String.eqb s "")
  end.

Definition is_space (c : ascii) : bool :=
  let n := N_of_ascii c in
  (((9 <=? n) && (n <=? 13)) || ((28 <=? n) && (n <=? 32)))%N.

Definition is_digit (c : ascii) : bool :=
  let n := N_of_ascii c in ((48 <=? n) && (n <=? 57))%N.

Definition digit_value (c : ascii) : Z := Z.of_N (N_of_ascii c) - 48.

Fixpoint lstrip (s : string) : string :=
  match s with
  | EmptyString => EmptyString
  | String c s' => if is_space c then lstrip s' else s
  end.

Fixpoint rstrip (s : string) : string :=
  match s with
  | EmptyString => EmptyString
  | String c s' =>
      match rstrip s' with
      | EmptyString => if is_space c then EmptyString else String c EmptyString
      | r => String c r
      end
  end.

Definition strip (s : string) : string := rstrip (lstrip s).

(** Digits of a decimal literal; an underscore may stand between two digits
    only ([after_digit] is false at the start and right after an underscore). *)
Fixpoint int_digits (acc : Z) (after_digit : bool) (s : string) : option Z :=
  match s with
  | EmptyString => if after_digit then Some acc else None
  | String c s' =>
      if is_digit c then int_digits (10 * acc + digit_value c) true s'
      else if Ascii.eqb c "_" then
        (if after_digit then int_digits acc false s' else None)
      else None
  end.

(** [int(s)] for a string, base 10: surrounding white space is dropped and
    one sign is allowed.  [None] stands for [ValueError].  Only ASCII digits
    and ASCII white space are known here. *)
Definition int_of_text (s : string) : option Z :=
  match strip s with
  | String "-" d => option_map Z.opp (int_digits 0 false d)
  | String "+" d => int_digits 0 false d
  | d => int_digits 0 false d
  end.

(** [int(v)]; [None] stands for the exception ([TypeError] on [None],
    [ValueError] on text that is no integer literal). *)
Definition py_int (v : value) : option Z :=
  match v with
  | Null => None
  | Int z => Some z
  | Text s => int_of_text s
  end.

Definition int_error (v : value) : exn :=
  match v with
  | Null => mkExn "TypeError" "int() argument must be a string, a bytes-like object or a real number, not 'NoneType'"
  | _ => mkExn "ValueError" "invalid literal for int() with base 10"
  end.

(** [int(v)] where the exception propagates. *)
Definition int_ (v : value) : outcome Z :=
  match py_int v with
  | Some z => Returns z
  | None => Raises (int_error v)
  end.

(** ** The task table *)

(** A row of TODO.  [completed] is an integer and [created_at] a text: the
    only INSERT of the program writes 0 and the ISO text of the clock, the
    only UPDATE of [completed] writes 0 or 1.  The program itself writes
    integers to [priority] too, but the presentation layer is prepared for
    text and NULL there, so that column holds any [value]. *)
Record row : Type := mkRow {
  id : Z;
  name : string;
  description : option string;
  completed : Z;
  created_at : string;
  due_date : option string;
  priority : value
}.

(** [rows]: the table TODO in rowid order; [seq]: the largest rowid the
    table ever held (sqlite_sequence), which AUTOINCREMENT never reuses. *)
Record db : Type := mkDb { rows : list row; seq : Z }.

(** The database file: either [sqlite3.connect] gives a connection to its
    contents or it raises. *)
Inductive store : Type :=
| Online (d : db)
| Offline (e : exn).

Definition get_connection (s : store) : outcome db :=
  match s with
  | Online d => Returns d
  | Offline e => Raises e
  end.

(** The table as CREATE TABLE makes it. *)
Definition empty_db : db := mkDb [] 0.

(** [init_db]: CREATE TABLE IF NOT EXISTS leaves an existing table alone. *)
Definition init_db (s : store) : outcome store :=
  conn <- get_connection s ;; Returns (Online conn).

(** *** Clock *)

Record datetime : Type := mkDatetime {
  year : Z; month : Z; day : Z; hour : Z; minute : Z; second : Z; microsecond : Z
}.

Definition pad (width : nat) (z : Z) : string :=
  let s := str_int z in
  (String.concat "" (repeat "0" (width - String.length s)) ++ s)%string.

(** [isoformat(timespec='seconds')]: the microseconds are dropped. *)
Definition isoformat_seconds (t : datetime) : string :=
  (pad 4 (year t) ++ "-" ++ pad 2 (month t) ++ "-" ++ pad 2 (day t) ++ "T" ++
   pad 2 (hour t) ++ ":" ++ pad 2 (minute t) ++ ":" ++ pad 2 (second t))%string.

(** *** SQL statements *)

Definition max_rowid (l : list row) : Z :=
  fold_right (fun r m => Z.max (id r) m) 0 l.

Definition next_rowid (d : db) : Z := Z.max (seq d) (max_rowid (rows d)) + 1.

(** INSERT INTO TODO (name, description, completed, created_at, due_date,
    priority) VALUES (?, ?, 0, ?, ?, ?) *)
Definition sql_insert (nm : string) (descr : option string) (created : string)
    (due : option string) (prio : Z) (d : db) : db :=
  let i := next_rowid d in
  mkDb (rows d ++ [mkRow i nm descr 0 created due (Int prio)]) i.

(** ASCII letters are compared without case by LIKE. *)
Definition lower (c : ascii) : ascii :=
  let n := N_of_ascii c in
  if ((65 <=? n) && (n <=? 90))%N then ascii_of_N (n + 32) else c.

Definition eq_nocase (c d : ascii) : bool := Ascii.eqb (lower c) (lower d).

(** [sql_like p s]: the text [s] matches the LIKE pattern [p]; '%' stands
    for any run of characters, '_' for any one character. *)
Fixpoint sql_like (p : string) : string -> bool :=
  match p with
  | EmptyString => fun s => match s with EmptyString => true | _ => false end
  | String c p' =>
      if Ascii.eqb c "%" then
        fix any (s : string) : bool :=
          sql_like p' s || match s with
                           | EmptyString => false
                           | String _ s' => any s'
                           end
      else if Ascii.eqb c "_" then
        fun s => match s with
                 | EmptyString => false
                 | String _ s' => sql_like p' s'
                 end
      else
        fun s => match s with
                 | EmptyString => false
                 | String d s' => eq_nocase c d && sql_like p' s'
                 end
  end.

(** [column LIKE ?] in a WHERE clause: NULL never satisfies it. *)
Definition like_column (pattern : string) (v : option string) : bool :=
  match v with
  | None => false
  | Some s => sql_like pattern s
  end.

(** Order of SQLite values: NULL, then integers, then text (memcmp). *)
Definition value_compare (a b : value) : comparison :=
  match a, b with
  | Null, Null => Eq
  | Null, _ => Lt
  | _, Null => Gt
  | Int x, Int y => Z.compare x y
  | Int _, Text _ => Lt
  | Text _, Int _ => Gt
  | Text s, Text t => String.compare s t
  end.

(** The ORDER BY clauses of ORDER_MAP. *)
Inductive order_clause : Type :=
| priority_DESC_created_at_DESC
| created_at_DESC
| priority_DESC.

Definition ORDER_MAP : list (string * order_clause) :=
  [ ("priority,created_at"%string, priority_DESC_created_at_DESC);
    ("created_at"%string, created_at_DESC);
    ("priority"%string, priority_DESC) ].

Fixpoint dict_get {V : Type} (m : list (string * V)) (k : string) (default : V) : V :=
  match m with
  | [] => default
  | (k', v) :: m' => if String.eqb k' k then v else dict_get m' k default
  end.

(** [order_compare o a b]: how row [a] stands to row [b] in the result
    ([Lt]: before). DESC turns each comparison round. *)
Definition order_compare (o : order_clause) (a b : row) : comparison :=
  match o with
  | priority_DESC_created_at_DESC =>
      match value_compare (priority b) (priority a) with
      | Eq => String.compare (created_at b) (created_at a)
      | c => c
      end
  | created_at_DESC => String.compare (created_at b) (created_at a)
  | priority_DESC => value_compare (priority b) (priority a)
  end.

Definition precedes (o : order_clause) (a b : row) : bool :=
  match order_compare o a b with
  | Gt => false
  | _ => true
  end.

Fixpoint insert_sorted (o : order_clause) (x : row) (l : list row) : list row :=
  match l with
  | [] => [x]
  | y :: l' => if precedes o x y then x :: l else y :: insert_sorted o x l'
  end.

(** ORDER BY: rows that tie on every term stay in table order (SQL leaves
    their order open). *)
Definition order_by (o : order_clause) (l : list row) : list row :=
  fold_right (insert_sorted o) [] l.

(** SELECT ... FROM TODO WHERE name LIKE ? OR description LIKE ? ORDER BY ... *)
Definition sql_select_like (pattern : string) (o : order_clause) (d : db) : list row :=
  order_by o (filter (fun r => sql_like pattern (name r) || like_column pattern (description r)) (rows d)).

(** SELECT ... FROM TODO ORDER BY ... *)
Definition sql_select_all (o : order_clause) (d : db) : list row :=
  order_by o (rows d).

(** SELECT ... FROM TODO WHERE id = ?, then [fetchone]. *)
Definition sql_select_id (task_id : Z) (d : db) : option row :=
  find (fun r => id r =? task_id) (rows d).

(** The row after SET name = ?, description = ?, due_date = ?, priority = ? *)
Definition set_row (nm : string) (descr : option string) (due : option string)
    (prio : Z) (r : row) : row :=
  mkRow (id r) nm descr (completed r) (created_at r) due (Int prio).

(** UPDATE TODO SET name = ?, description = ?, due_date = ?, priority = ?
    WHERE id = ? *)
Definition sql_update (task_id : Z) (nm : string) (descr : option string)
    (due : option string) (prio : Z) (d : db) : db :=
  mkDb (map (fun r => if id r =? task_id then set_row nm descr due prio r else r) (rows d))
       (seq d).

(** DELETE FROM TODO WHERE id = ? *)
Definition sql_delete (task_id : Z) (d : db) : db :=
  mkDb (filter (fun r => negb (id r =? task_id)) (rows d)) (seq d).

(** The row after SET completed = CASE WHEN completed=0 THEN 1 ELSE 0 END *)
Definition toggle_row (r : row) : row :=
  mkRow (id r) (name r) (description r) (if completed r =? 0 then 1 else 0)
        (created_at r) (due_date r) (priority r).

(** UPDATE TODO SET completed = CASE WHEN completed=0 THEN 1 ELSE 0 END
    WHERE id = ? *)
Definition sql_toggle (task_id : Z) (d : db) : db :=
  mkDb (map (fun r => if id r =? task_id then toggle_row r else r) (rows d)) (seq d).

(** ** Database layer *)

Definition value_of_text (o : option string) : value :=
  match o with
  | None => Null
  | Some s => Text s
  end.

(** [x if x else None] *)
Definition or_None (o : option string) : option string :=
  if truthy (value_of_text o) then o else None.

(** [utcnow] is the reading of the clock that [datetime.utcnow()] gives. *)
Definition add_task (name : string) (description : option string)
    (due_date : option string) (priority : value) (utcnow : datetime)
    (s : store) : outcome store :=
  let created_at := isoformat_seconds utcnow in
  conn <- get_connection s ;;
  p <- int_ priority ;;
  Returns (Online (sql_insert name description created_at (or_None due_date) p conn)).

Definition default_order : order_clause := priority_DESC_created_at_DESC.

Definition get_tasks (filter_text : string) (order_by : order_clause)
    (s : store) : outcome (list row) :=
  conn <- get_connection s ;;
  if truthy (Text filter_text) then
    let like := ("%" ++ filter_text ++ "%")%string in
    Returns (sql_select_like like order_by conn)
  else
    Returns (sql_select_all order_by conn).

Definition get_task_by_id (task_id : Z) (s : store) : outcome (option row) :=
  conn <- get_connection s ;;
  Returns (sql_select_id task_id conn).

Definition update_task (task_id : Z) (name : string) (description : option string)
    (due_date : option string) (priority : value) (s : store) : outcome store :=
  conn <- get_connection s ;;
  p <- int_ priority ;;
  Returns (Online (sql_update task_id name description (or_None due_date) p conn)).

Definition delete_task (task_id : Z) (s : store) : outcome store :=
  conn <- get_connection s ;;
  Returns (Online (sql_delete task_id conn)).

Definition toggle_completed (task_id : Z) (s : store) : outcome store :=
  conn <- get_connection s ;;
  Returns (Online (sql_toggle task_id conn)).

(** *** CSV export *)

Definition dquote : ascii := "034"%char.
Definition CR : ascii := "013"%char.
Definition LF : ascii := "010"%char.

(** The characters that make [csv.writer] quote a field (dialect excel,
    QUOTE_MINIMAL): delimiter, quote character and those of the line
    terminator. *)
Definition special (c : ascii) : bool :=
  Ascii.eqb c "," || Ascii.eqb c dquote || Ascii.eqb c CR || Ascii.eqb c LF.

Fixpoint has_special (s : string) : bool :=
  match s with
  | EmptyString => false
  | String c s' => special c || has_special s'
  end.

Fixpoint double_quotes (s : string) : string :=
  match s with
  | EmptyString => EmptyString
  | String c s' =>
      if Ascii.eqb c dquote then String dquote (String dquote (double_quotes s'))
      else String c (double_quotes s')
  end.

Definition quoted (s : string) : string :=
  String dquote (double_quotes s ++ String dquote EmptyString).

(** How the writer turns a field into text: [None] gives the empty string,
    anything else its [str]. *)
Definition field_text (v : value) : string :=
  match v with
  | Null => EmptyString
  | Int z => str_int z
  | Text s => s
  end.

Definition csv_field (v : value) : string :=
  let s := field_text v in
  if has_special s then quoted s else s.

Definition line_terminator : string := String CR (String LF EmptyString).

(** [writer.writerow(fields)]: the text that reaches the file.  A record
    whose only field is empty is written as a pair of quotes. *)
Definition writerow (fields : list value) : string :=
  let body := String.concat "," (map csv_field fields) in
  match fields, body with
  | _ :: _, EmptyString => (quoted EmptyString ++ line_terminator)%string
  | _, _ => (body ++ line_terminator)%string
  end.

(** [list(t)] for a row tuple of [get_tasks]. *)
Definition row_tuple (t : row) : list value :=
  [ Int (id t); Text (name t); value_of_text (description t); Int (completed t);
    Text (created_at t); value_of_text (due_date t); priority t ].

Definition csv_header : list value :=
  [ Text "id"; Text "name"; Text "description"; Text "completed";
    Text "created_at"; Text "due_date"; Text "priority" ].

(** The files of the machine, by path. *)
Definition files : Type := string -> option string.

Definition put_file (path content : string) (fs : files) : files :=
  fun p => if String.eqb p path then Some content else fs p.

(** What the environment does to one export: nothing, [open] raises, or the
    write of record number [n] (the header is number 0) raises. *)
Inductive fault : Type :=
| NoFault
| OpenFails (e : exn)
| WriteFails (n : nat) (e : exn).

(** [open(filepath, "w", newline="", encoding="utf-8")]: the file is created
    or emptied. *)
Definition open_w (path : string) (flt : fault) (fs : files) : outcome files :=
  match flt with
  | OpenFails e => Raises e
  | _ => Returns (put_file path EmptyString fs)
  end.

Definition write_fails (flt : fault) (k : nat) : option exn :=
  match flt with
  | WriteFails n e => if Nat.eqb n k then Some e else None
  | _ => None
  end.

(** The records are written one after the other to the text [f] of the open
    file; what was written before an exception stays. *)
Fixpoint writerows (flt : fault) (k : nat) (records : list (list value))
    (f : string) : outcome unit * string :=
  match records with
  | [] => (Returns tt, f)
  | r :: rest =>
      match write_fails flt k with
      | Some e => (Raises e, f)
      | None => writerows flt (S k) rest (f ++ writerow r)%string
      end
  end.

(** [export_tasks_to_csv]: the tasks are read before the [try]; [open] and
    the writes are inside it. *)
Definition export_tasks_to_csv (filepath : string) (s : store) (flt : fault)
    (fs : files) : outcome (bool * string) * files :=
  match get_tasks "" default_order s with
  | Raises e => (Raises e, fs)
  | Returns tasks =>
      match open_w filepath flt fs with
      | Raises e => (Returns (false, exn_text e), fs)
      | Returns fs0 =>
          let '(r, f) := writerows flt 0 (csv_header :: map row_tuple tasks) EmptyString in
          let fs1 := put_file filepath f fs0 in
          match r with
          | Returns _ =>
              (Returns (true, ("Exported " ++ str_int (Z.of_nat (List.length tasks))
                               ++ " tasks to " ++ filepath)%string), fs1)
          | Raises e => (Returns (false, exn_text e), fs1)
          end
      end
  end.

(** ** Presentation layer: palettes and priorities *)

Record palette : Type := mkPalette {
  window_bg : string; glass : string; panel : string; card : string;
  card_inner_stroke : string; text : string; muted : string
}.

Definition LIGHT : palette :=
  mkPalette "#eaf2ff" "#f7fbff" "#f5f9ff" "#e1edff" "#ffffff" "#06234a" "#58606b".

Definition DARK : palette :=
  mkPalette "#07101c" "#071826" "#0f1724" "#102230" "#0b1220" "#e6eef9" "#9aa4b2".

Definition PRIORITY_LIGHT : list (Z * string) :=
  [ (1, "#fff1f0"%string); (2, "#fff8e6"%string); (3, "#effaf1"%string) ].

Definition PRIORITY_DARK : list (Z * string) :=
  [ (1, "#4c1111"%string); (2, "#664900"%string); (3, "#0f5132"%string) ].

Fixpoint int_dict_get {V : Type} (m : list (Z * V)) (k : Z) (default : V) : V :=
  match m with
  | [] => default
  | (k', v) :: m' => if k' =? k then v else int_dict_get m' k default
  end.

(** [try: p = int(priority) except Exception: p = 2] *)
Definition int_or_2 (priority : value) : Z :=
  match py_int priority with
  | Some p => p
  | None => 2
  end.

Definition get_priority_bg (priority : value) (is_dark : bool) : string :=
  let p := int_or_2 priority in
  if is_dark then int_dict_get PRIORITY_DARK p (card DARK)
  else int_dict_get PRIORITY_LIGHT p (card LIGHT).

(** The background of the card that [refresh_tasks] builds for a row. *)
Definition card_bg (t : row) (is_dark : bool) : string :=
  let priority := int_or_2 (priority t) in
  get_priority_bg (Int priority) is_dark.

(** The label that [on_task_selected] sets on the priority selector. *)
Definition details_priority_label (t : row) : string :=
  let p := int_or_2 (priority t) in
  let word := if p =? 1 then "High"%string
              else if p =? 2 then "Medium"%string else "Low"%string in
  (str_int p ++ " - " ++ word)%string.

(** The order clause [refresh_tasks] passes on for the key of the option menu. *)
Definition order_by_clause (order_key : string) : order_clause :=
  dict_get ORDER_MAP order_key (dict_get ORDER_MAP "priority,created_at" default_order).

(** ** Vocabulary of the properties *)

(** Lexicographic comparison of two keys, the second one deciding ties. *)
Definition lex {K1 K2 : Type} (cmp1 : K1 -> K1 -> comparison)
    (cmp2 : K2 -> K2 -> comparison) (a b : K1 * K2) : comparison :=
  match cmp1 (fst a) (fst b) with
  | Eq => cmp2 (snd a) (snd b)
  | c => c
  end.

Definition key_compare : value * string -> value * string -> comparison :=
  lex value_compare String.compare.

(** The columns an ORDER BY clause looks at; a column it does not use is
    replaced by a constant. *)
Definition sort_key (o : order_clause) (r : row) : value * string :=
  match o with
  | priority_DESC_created_at_DESC => (priority r, created_at r)
  | created_at_DESC => (Null, created_at r)
  | priority_DESC => (priority r, EmptyString)
  end.

Definition in_order (o : order_clause) (a b : row) : Prop := precedes o a b = true.

(** Row [a] may stand before row [b]: its priority is greater, or the
    priorities are equal and it was not created earlier. *)
Definition priority_then_recency (a b : row) : Prop :=
  value_compare (priority a) (priority b) = Gt \/
  (priority a = priority b /\ String.compare (created_at a) (created_at b) <> Lt).

(** Texts of the same length whose characters agree under [eqc]. *)
Fixpoint same_by (eqc : ascii -> ascii -> bool) (a b : string) : bool :=
  match a, b with
  | EmptyString, EmptyString => true
  | String c a', String d b' => eqc c d && same_by eqc a' b'
  | _, _ => false
  end.

Fixpoint prefix_by (eqc : ascii -> ascii -> bool) (p s : string) : bool :=
  match p, s with
  | EmptyString, _ => true
  | String c p', String d s' => eqc c d && prefix_by eqc p' s'
  | String _ _, EmptyString => false
  end.

Fixpoint contains_by (eqc : ascii -> ascii -> bool) (p s : string) : bool :=
  prefix_by eqc p s ||
  match s with
  | EmptyString => false
  | String _ s' => contains_by eqc p s'
  end.

(** [contains p s]: [p] is a substring of [s]. *)
Definition contains : string -> string -> bool := contains_by Ascii.eqb.



(** A test on texts holds of the name or of the description of a row (a
    NULL description fails it). *)
Definition name_or_description (test : string -> bool) (r : row) : bool :=
  test (name r) ||
  match description r with
  | Some s => test s
  | None => false
  end.

(** The store after an operation: what it committed, or the old store when
    it raised. *)
Definition store_after (s : store) (o : outcome store) : store :=
  match o with
  | Returns s' => s'
  | Raises _ => s
  end.

(** The completed flag as the presentation layer reads it ([if completed:]). *)
Definition is_completed (t : row) : bool := negb (completed t =? 0).

(** The text of the records written one after the other. *)
Definition csv_text (records : list (list value)) : string :=
  fold_right (fun r f => (writerow r ++ f)%string) EmptyString records.

Definition header_line : string :=
  ("id,name,description,completed,created_at,due_date,priority" ++ line_terminator)%string.

(** A later call of one of the functions that write to the store, and the
    store it leaves (the old one when the call raises). *)
Inductive call : Type :=
| call_add_task (name : string) (description due : option string) (priority : value)
    (utcnow : datetime)
| call_update_task (task_id : Z) (name : string) (description due : option string)
    (priority : value)
| call_delete_task (task_id : Z)
| call_toggle_completed (task_id : Z).

Definition perform (c : call) (s : store) : store :=
  store_after s
    match c with
    | call_add_task n ds du p now => add_task n ds du p now s
    | call_update_task k n ds du p => update_task k n ds du p s
    | call_delete_task k => delete_task k s
    | call_toggle_completed k => toggle_completed k s
    end.

Definition perform_all (cs : list call) (s : store) : store :=
  fold_left (fun s c => perform c s) cs s.

(** No row of the store has the identifier [k], and AUTOINCREMENT has
    already passed it. *)
Definition gone (k : Z) (s : store) : Prop :=
  exists d, s = Online d /\ (forall t, In t (rows d) -> id t <> k) /\ k <= seq d.

(** The counter of AUTOINCREMENT is not behind any row of the store. *)
Definition within_seq (s : store) : Prop :=
  exists d, s = Online d /\ forall t, In t (rows d) -> id t <= seq d.

(** ** Example stores *)

Definition milk : row :=
  mkRow 1 "Buy milk" (Some EmptyString) 0 "2025-01-01T09:00:00"
        (Some "2025-01-01"%string) (Int 1).

Definition milk_db : db := mkDb [milk] 1.

Definition noon : datetime := mkDatetime 2025 3 4 12 0 0 250000.

(** The row of [milk] with another stored priority. *)
Definition with_priority (v : value) : row :=
  mkRow (id milk) (name milk) (description milk) (completed milk)
        (created_at milk) (due_date milk) v.

Definition locked : exn := mkExn "OperationalError" "unable to open database file".

Definition disk_full : exn := mkExn "OSError" "[Errno 28] No space left on device".

Definition no_files : files := fun _ => None.


(** ** Vocabulary of the further properties *)

(** The primary key of TODO: the identifiers of the rows are pairwise
    different, positive and not beyond the counter of AUTOINCREMENT. *)
Definition primary_key (s : store) : Prop :=
  exists d, s = Online d /\
            NoDup (map id (rows d)) /\
            forall t, In t (rows d) -> 1 <= id t <= seq d.

(** Newest first. *)
Definition recency (a b : row) : Prop :=
  String.compare (created_at a) (created_at b) <> Lt.

(** Highest priority value first. *)
Definition priority_descending (a b : row) : Prop :=
  value_compare (priority a) (priority b) <> Lt.

(** The order of the listing for a key of the order menu, known or not. *)
Definition key_order (order_key : string) : row -> row -> Prop :=
  if String.eqb order_key "created_at" then recency
  else if String.eqb order_key "priority" then priority_descending
  else priority_then_recency.






(** ** Presentation layer: the window

    The widgets are kept by what the handlers read and write of them: the
    text of an entry, the value of an option menu, the colours and texts of
    a task card.  A message box is a line of [dialogs]; the answer to a
    question, the path of a file dialog and the reading of the clock are
    arguments of the handler that asks for them. *)

Definition theme_text_color (is_dark : bool) : string :=
  if is_dark then text DARK else text LIGHT.

Definition theme_muted_color (is_dark : bool) : string :=
  if is_dark then muted DARK else muted LIGHT.

Inductive dialog : Type :=
| showwarning (title message : string)
| showinfo (title message : string)
| showerror (title message : string)
| askyesno (title message : string).

(** One card of the task list; [widget] tells the frames apart, [card_task]
    is the id its buttons are bound to.  [hover_color] and [base_bg] are
    the colours that the hover bindings of the card hold, [prev_bg] is its
    attribute [_prev_bg], None as long as it is not set. *)
Record card_widget : Type := mkCard {
  widget : nat;
  card_task : Z;
  fg_color : string;
  title_text : string;
  title_color : string;
  meta_text : string;
  meta_color : string;
  comp_text : string;
  hover_color : string;
  base_bg : string;
  prev_bg : option string
}.

Record form_panel : Type := mkForm {
  entry_name : string;
  entry_desc : string;
  entry_due : string;
  priority_opt : string
}.

Record details_panel : Type := mkDetails {
  details_name : string;
  details_desc : string;
  details_desc_enabled : bool;
  details_due : string;
  details_priority : string;
  details_meta : string
}.

(** The colours of the frames and labels that [apply_theme] sets; a label
    colour is None as long as the library default is in place. *)
Record chrome : Type := mkChrome {
  root_frame_fg : string;
  left_panel_fg : string;
  right_panel_fg : string;
  task_frame_fg : string;
  label_color : option string;
  details_meta_color : option string
}.

(** A scheduled call of [step]: the card it colours, the two colours and
    the step number. *)
Record pulse : Type := mkPulse {
  target : nat;
  base : string;
  pulse_color : string;
  next_step : nat
}.

Record app : Type := mkApp {
  db_file : store;
  disk : files;
  appearance_dark : bool;
  dark_mode_var : bool;
  window : chrome;
  search_var : string;
  order_var : string;
  form : form_panel;
  details : details_panel;
  selected_task_id : option Z;
  task_card_widgets : list card_widget;
  next_widget : nat;
  pulse_after_id : option nat;
  timers : list (nat * pulse);
  next_after : nat;
  dialogs : list dialog
}.

Definition set_db_file (x : store) (a : app) : app :=
  mkApp x (disk a) (appearance_dark a) (dark_mode_var a) (window a) (search_var a)
        (order_var a) (form a) (details a) (selected_task_id a) (task_card_widgets a)
        (next_widget a) (pulse_after_id a) (timers a) (next_after a) (dialogs a).

Definition set_disk (x : files) (a : app) : app :=
  mkApp (db_file a) x (appearance_dark a) (dark_mode_var a) (window a) (search_var a)
        (order_var a) (form a) (details a) (selected_task_id a) (task_card_widgets a)
        (next_widget a) (pulse_after_id a) (timers a) (next_after a) (dialogs a).

Definition set_appearance_dark (x : bool) (a : app) : app :=
  mkApp (db_file a) (disk a) x (dark_mode_var a) (window a) (search_var a) (order_var a)
        (form a) (details a) (selected_task_id a) (task_card_widgets a) (next_widget a)
        (pulse_after_id a) (timers a) (next_after a) (dialogs a).

Definition set_dark_mode_var (x : bool) (a : app) : app :=
  mkApp (db_file a) (disk a) (appearance_dark a) x (window a) (search_var a)
        (order_var a) (form a) (details a) (selected_task_id a) (task_card_widgets a)
        (next_widget a) (pulse_after_id a) (timers a) (next_after a) (dialogs a).

Definition set_window (x : chrome) (a : app) : app :=
  mkApp (db_file a) (disk a) (appearance_dark a) (dark_mode_var a) x (search_var a)
        (order_var a) (form a) (details a) (selected_task_id a) (task_card_widgets a)
        (next_widget a) (pulse_after_id a) (timers a) (next_after a) (dialogs a).

Definition set_search_var (x : string) (a : app) : app :=
  mkApp (db_file a) (disk a) (appearance_dark a) (dark_mode_var a) (window a) x
        (order_var a) (form a) (details a) (selected_task_id a) (task_card_widgets a)
        (next_widget a) (pulse_after_id a) (timers a) (next_after a) (dialogs a).

Definition set_order_var (x : string) (a : app) : app :=
  mkApp (db_file a) (disk a) (appearance_dark a) (dark_mode_var a) (window a)
        (search_var a) x (form a) (details a) (selected_task_id a) (task_card_widgets a)
        (next_widget a) (pulse_after_id a) (timers a) (next_after a) (dialogs a).

Definition set_form (x : form_panel) (a : app) : app :=
  mkApp (db_file a) (disk a) (appearance_dark a) (dark_mode_var a) (window a)
        (search_var a) (order_var a) x (details a) (selected_task_id a)
        (task_card_widgets a) (next_widget a) (pulse_after_id a) (timers a)
        (next_after a) (dialogs a).

Definition set_details (x : details_panel) (a : app) : app :=
  mkApp (db_file a) (disk a) (appearance_dark a) (dark_mode_var a) (window a)
        (search_var a) (order_var a) (form a) x (selected_task_id a)
        (task_card_widgets a) (next_widget a) (pulse_after_id a) (timers a)
        (next_after a) (dialogs a).

Definition set_selected_task_id (x : option Z) (a : app) : app :=
  mkApp (db_file a) (disk a) (appearance_dark a) (dark_mode_var a) (window a)
        (search_var a) (order_var a) (form a) (details a) x (task_card_widgets a)
        (next_widget a) (pulse_after_id a) (timers a) (next_after a) (dialogs a).

Definition set_task_card_widgets (x : list card_widget) (a : app) : app :=
  mkApp (db_file a) (disk a) (appearance_dark a) (dark_mode_var a) (window a)
        (search_var a) (order_var a) (form a) (details a) (selected_task_id a) x
        (next_widget a) (pulse_after_id a) (timers a) (next_after a) (dialogs a).

Definition set_next_widget (x : nat) (a : app) : app :=
  mkApp (db_file a) (disk a) (appearance_dark a) (dark_mode_var a) (window a)
        (search_var a) (order_var a) (form a) (details a) (selected_task_id a)
        (task_card_widgets a) x (pulse_after_id a) (timers a) (next_after a) (dialogs a).

Definition set_pulse_after_id (x : option nat) (a : app) : app :=
  mkApp (db_file a) (disk a) (appearance_dark a) (dark_mode_var a) (window a)
        (search_var a) (order_var a) (form a) (details a) (selected_task_id a)
        (task_card_widgets a) (next_widget a) x (timers a) (next_after a) (dialogs a).

Definition set_timers (x : list (nat * pulse)) (a : app) : app :=
  mkApp (db_file a) (disk a) (appearance_dark a) (dark_mode_var a) (window a)
        (search_var a) (order_var a) (form a) (details a) (selected_task_id a)
        (task_card_widgets a) (next_widget a) (pulse_after_id a) x (next_after a)
        (dialogs a).

Definition set_next_after (x : nat) (a : app) : app :=
  mkApp (db_file a) (disk a) (appearance_dark a) (dark_mode_var a) (window a)
        (search_var a) (order_var a) (form a) (details a) (selected_task_id a)
        (task_card_widgets a) (next_widget a) (pulse_after_id a) (timers a) x
        (dialogs a).

Definition set_dialogs (x : list dialog) (a : app) : app :=
  mkApp (db_file a) (disk a) (appearance_dark a) (dark_mode_var a) (window a)
        (search_var a) (order_var a) (form a) (details a) (selected_task_id a)
        (task_card_widgets a) (next_widget a) (pulse_after_id a) (timers a)
        (next_after a) x.

Open Scope string_scope.

(** A handler runs on the window and may be cut short by an exception; what
    it did before stays. *)
Definition ui (A : Type) : Type := app -> outcome A * app.

Definition ui_ret {A : Type} (x : A) : ui A := fun a => (Returns x, a).

Definition ui_bind {A B : Type} (c : ui A) (k : A -> ui B) : ui B :=
  fun a =>
    match c a with
    | (Returns x, a') => k x a'
    | (Raises e, a') => (Raises e, a')
    end.

Notation "'let*' x ':=' c 'in' k" := (ui_bind c (fun x => k))
  (at level 10, x name, c at level 100, k at level 200).

Notation "c ';;;' k" := (ui_bind c (fun _ => k))
  (at level 62, right associativity).

Definition gets {A : Type} (f : app -> A) : ui A := fun a => (Returns (f a), a).

Definition update_ui (f : app -> app) : ui unit := fun a => (Returns tt, f a).

(** A read of the database file. *)
Definition query {A : Type} (q : store -> outcome A) : ui A :=
  fun a => (q (db_file a), a).

(** A write to the database file. *)
Definition commit (w : store -> outcome store) : ui unit :=
  fun a =>
    match w (db_file a) with
    | Returns s => (Returns tt, set_db_file s a)
    | Raises e => (Raises e, a)
    end.

Definition show (d : dialog) : ui unit :=
  update_ui (fun a => set_dialogs (dialogs a ++ [d])%list a).

(** [s.split(sep)[0]]: the text before the first [sep], all of [s] when it
    has none. *)
Fixpoint before (sep s : string) : string :=
  if prefix_by Ascii.eqb sep s then EmptyString
  else match s with
       | EmptyString => EmptyString
       | String c s' => String c (before sep s')
       end.

(** [if self.selected_task_id:]: None and 0 count as no selection. *)
Definition selected_truthy (a : app) : option Z :=
  match selected_task_id a with
  | Some k => if (k =? 0)%Z then None else Some k
  | None => None
  end.

(** [self.selected_task_id == task_id] *)
Definition is_selected (task_id : Z) (a : app) : bool :=
  match selected_task_id a with
  | Some k => (k =? task_id)%Z
  | None => false
  end.

Definition bullet : string :=
  String "226" (String "128" (String "162" EmptyString)).

Definition text_or_empty (o : option string) : string :=
  match o with
  | Some s => s
  | None => EmptyString
  end.

(** *** clear_details *)

Definition cleared_details : details_panel :=
  mkDetails "" "" false "" "2 - Medium" "".

Definition clear_details : ui unit :=
  update_ui (fun a => set_details cleared_details (set_selected_task_id None a)).

(** *** animate_selection *)

Definition steps : nat := 6.

Definition with_fg_color (color : string) (c : card_widget) : card_widget :=
  mkCard (widget c) (card_task c) color (title_text c) (title_color c)
         (meta_text c) (meta_color c) (comp_text c)
         (hover_color c) (base_bg c) (prev_bg c).

(** [safe_configure(target, fg_color=...)]: a frame that was destroyed
    raises, which is swallowed. *)
Definition configure_fg (w : nat) (color : string) (a : app) : app :=
  set_task_card_widgets
    (map (fun c => if Nat.eqb (widget c) w then with_fg_color color c else c)
         (task_card_widgets a)) a.

(** [self.after(interval, ...)]: a new timer; its id is returned. *)
Definition after (p : pulse) (a : app) : nat * app :=
  (next_after a,
   set_next_after (S (next_after a)) (set_timers (timers a ++ [(next_after a, p)])%list a)).

Definition after_cancel (i : nat) (a : app) : app :=
  set_timers (filter (fun t => negb (Nat.eqb (fst t) i)) (timers a)) a.

(** The closure [step] of [animate_selection] at step [next_step p]. *)
Definition step (p : pulse) : ui unit :=
  update_ui (fun a =>
    let i := next_step p in
    let a1 := configure_fg (target p) (if Nat.even i then pulse_color p else base p) a in
    let next_i := S i in
    if (next_i <=? steps)%nat then
      let '(timer, a2) := after (mkPulse (target p) (base p) (pulse_color p) next_i) a1 in
      set_pulse_after_id (Some timer) a2
    else set_pulse_after_id None a1).

Definition animate_selection (task_id : Z) : ui unit :=
  update_ui (fun a =>
    match pulse_after_id a with
    | Some i => set_pulse_after_id None (after_cancel i a)
    | None => a
    end) ;;;
  let* cards := gets task_card_widgets in
  match find (fun c => (card_task c =? task_id)%Z) cards with
  | None => ui_ret tt
  | Some card_found =>
      let* is_dark := gets appearance_dark in
      let pulse_color := if is_dark then "#163144" else "#a8d1ff" in
      step (mkPulse (widget card_found) (fg_color card_found) pulse_color 0)
  end.

(** A timer of Tk fires: it is taken off and its call runs. *)
Definition timer_fires (i : nat) : ui unit :=
  let* pending := gets timers in
  match find (fun t => Nat.eqb (fst t) i) pending with
  | None => ui_ret tt
  | Some (_, p) => update_ui (after_cancel i) ;;; step p
  end.

(** *** on_task_selected *)

Definition details_meta_text (t : row) : string :=
  ("Created: " ++ created_at t ++ "   " ++ bullet ++ "   Completed: " ++
   (if is_completed t then "Yes" else "No"))%string.

(** The details panel as [on_task_selected] fills it. *)
Definition details_of (t : row) : details_panel :=
  mkDetails (name t) (text_or_empty (description t)) true
            (text_or_empty (or_None (due_date t)))
            (details_priority_label t) (details_meta_text t).

Definition on_task_selected (task_id : Z) : ui unit :=
  let* task := query (get_task_by_id task_id) in
  match task with
  | None => ui_ret tt
  | Some t =>
      update_ui (fun a => set_details (details_of t) (set_selected_task_id (Some task_id) a)) ;;;
      animate_selection task_id
  end.

(** *** refresh_tasks *)

Definition card_meta_text (t : row) : string :=
  ("Priority: " ++ str_int (int_or_2 (priority t)) ++ "   " ++ bullet ++
   "   Created: " ++ created_at t ++
   match or_None (due_date t) with
   | Some due => "   " ++ bullet ++ "   Due: " ++ due
   | None => ""
   end)%string.

(** The colour that [_bind_hover] takes for a card built in the given
    mode. *)
Definition hover_shade (is_dark : bool) : string :=
  if is_dark then "#163144" else "#c7ddff".

Definition render_card (is_dark : bool) (w : nat) (t : row) : card_widget :=
  mkCard w (id t) (card_bg t is_dark)
         (if is_completed t then "[COMPLETED] " ++ name t else name t)
         (theme_text_color is_dark)
         (card_meta_text t) (theme_muted_color is_dark)
         (if is_completed t then "Mark Undone" else "Mark Done")
         (hover_shade is_dark) (card_bg t is_dark) None.

Fixpoint render_cards (is_dark : bool) (w : nat) (tasks : list row) : list card_widget :=
  match tasks with
  | [] => []
  | t :: rest => render_card is_dark w t :: render_cards is_dark (S w) rest
  end.

Definition refresh_tasks : ui unit :=
  update_ui (set_task_card_widgets []) ;;;
  let* filter_text := gets (fun a => strip (search_var a)) in
  let* order_key := gets order_var in
  let* tasks := query (get_tasks filter_text (order_by_clause order_key)) in
  let* is_dark := gets appearance_dark in
  update_ui (fun a =>
    set_next_widget (next_widget a + List.length tasks)%nat
      (set_task_card_widgets (render_cards is_dark (next_widget a) tasks) a)) ;;;
  let* selected := gets selected_truthy in
  match selected with
  | None => ui_ret tt
  | Some k =>
      let* found := query (get_task_by_id k) in
      match found with
      | Some _ => on_task_selected k
      | None => clear_details
      end
  end.

(** *** _bind_hover *)

(** [on_enter]: the colour of the card goes to [_prev_bg] and the card
    takes the hover colour. *)
Definition on_enter (c : card_widget) : card_widget :=
  mkCard (widget c) (card_task c) (hover_color c) (title_text c) (title_color c)
         (meta_text c) (meta_color c) (comp_text c)
         (hover_color c) (base_bg c) (Some (fg_color c)).

(** [on_leave]: the card takes [getattr(widget, "_prev_bg", base_bg)]. *)
Definition on_leave (c : card_widget) : card_widget :=
  with_fg_color (match prev_bg c with
                 | Some color => color
                 | None => base_bg c
                 end) c.

(** A binding of the frame [w] runs, when the frame is on the screen. *)
Definition on_frame (w : nat) (binding : card_widget -> card_widget) : ui unit :=
  update_ui (fun a =>
    set_task_card_widgets
      (map (fun c => if Nat.eqb (widget c) w then binding c else c)
           (task_card_widgets a)) a).

(** *** The handlers of the buttons *)

Definition cleared_form : form_panel := mkForm "" "" "" "2 - Medium".

(** The priority an option menu stands for: the number before " - ", 2 when
    it is none. *)
Definition priority_of_menu (choice : string) : Z :=
  int_or_2 (Text (before " - " choice)).

Definition add_task_from_form (utcnow : datetime) : ui unit :=
  let* name := gets (fun a => strip (entry_name (form a))) in
  if String.eqb name "" then show (showwarning "Validation" "Task name is required.")
  else
    let* desc := gets (fun a => strip (entry_desc (form a))) in
    let* due := gets (fun a => strip (entry_due (form a))) in
    let* priority := gets (fun a => priority_of_menu (priority_opt (form a))) in
    commit (add_task name (Some desc) (or_None (Some due)) (Int priority) utcnow) ;;;
    update_ui (set_form cleared_form) ;;;
    refresh_tasks.

(** [self.details_desc.get("1.0", "end")]: the text of the box and the
    line end that Tk keeps after it. *)
Definition textbox_get (content : string) : string :=
  (content ++ String LF EmptyString)%string.

Definition save_selected_task : ui unit :=
  let* selected := gets selected_truthy in
  match selected with
  | None =>
      show (showinfo "Info" "Select a task first or use Add Task on the left to create.")
  | Some k =>
      let* name := gets (fun a => strip (details_name (details a))) in
      if String.eqb name "" then show (showwarning "Validation" "Task name is required.")
      else
        let* desc := gets (fun a => strip (textbox_get (details_desc (details a)))) in
        let* due := gets (fun a => strip (details_due (details a))) in
        let* priority := gets (fun a => priority_of_menu (details_priority (details a))) in
        commit (update_task k name (Some desc) (or_None (Some due)) (Int priority)) ;;;
        show (showinfo "Saved" "Task updated.") ;;;
        clear_details ;;;
        refresh_tasks
  end.

Definition delete_selected_task (answer : bool) : ui unit :=
  let* selected := gets selected_truthy in
  match selected with
  | None => show (showinfo "Info" "No task selected.")
  | Some k =>
      show (askyesno "Confirm" "Delete selected task?") ;;;
      if answer then commit (delete_task k) ;;; clear_details ;;; refresh_tasks
      else ui_ret tt
  end.

Definition delete_and_reload (task_id : Z) (answer : bool) : ui unit :=
  show (askyesno "Confirm" "Delete this task?") ;;;
  if answer then
    commit (delete_task task_id) ;;;
    let* same := gets (is_selected task_id) in
    (if same then clear_details else ui_ret tt) ;;;
    refresh_tasks
  else ui_ret tt.

Definition toggle_complete_and_reload (task_id : Z) : ui unit :=
  commit (toggle_completed task_id) ;;;
  let* same := gets (is_selected task_id) in
  (if same then clear_details else ui_ret tt) ;;;
  refresh_tasks.

(** *** Theme *)

Definition palette_eqb (p q : palette) : bool :=
  String.eqb (window_bg p) (window_bg q) && String.eqb (glass p) (glass q) &&
  String.eqb (panel p) (panel q) && String.eqb (card p) (card q) &&
  String.eqb (card_inner_stroke p) (card_inner_stroke q) &&
  String.eqb (text p) (text q) && String.eqb (muted p) (muted q).

(** [palette is DARK] is taken as equality of the palettes. *)
Definition apply_theme (p : palette) : ui unit :=
  let is_dark := palette_eqb p DARK in
  update_ui (set_window
    (mkChrome (window_bg p) (panel p) (glass p) (panel p)
              (Some (theme_text_color is_dark)) (Some (theme_muted_color is_dark)))) ;;;
  refresh_tasks.

Definition toggle_dark_mode : ui unit :=
  let* dark := gets dark_mode_var in
  if dark then update_ui (set_appearance_dark true) ;;; apply_theme DARK
  else update_ui (set_appearance_dark false) ;;; apply_theme LIGHT.

(** *** Export *)

(** [path] is what the file dialog returns (the empty text when it is
    cancelled), [flt] what the environment does to the export. *)
Definition export_csv_dialog (path : string) (flt : fault) : ui unit :=
  if String.eqb path "" then ui_ret tt
  else
    fun a =>
      let '(result, fs) := export_tasks_to_csv path (db_file a) flt (disk a) in
      match result with
      | Raises e => (Raises e, set_disk fs a)
      | Returns (ok, msg) =>
          show (if ok then showinfo "Export" msg else showerror "Export Error" msg)
               (set_disk fs a)
      end.

(** *** Start *)

(** The window as [build_ui] leaves it. *)
Definition build_ui (s : store) (fs : files) : app :=
  mkApp s fs false false
        (mkChrome (window_bg LIGHT) (panel LIGHT) (glass LIGHT) "transparent" None None)
        "" "priority,created_at" cleared_form
        (mkDetails "" "" true "" "2 - Medium" "")
        None [] 0 None [] 0 [].

(** [ToDoApp.__init__] after [build_ui]. *)
Definition startup : ui unit :=
  commit init_db ;;; apply_theme LIGHT ;;; refresh_tasks.

(** *** What the user does *)

Inductive priority_choice : Type := choose_high | choose_medium | choose_low.

Definition priority_value (c : priority_choice) : string :=
  match c with
  | choose_high => "1 - High"
  | choose_medium => "2 - Medium"
  | choose_low => "3 - Low"
  end.

Inductive order_choice : Type :=
| choose_priority_created_at | choose_created_at | choose_priority.

(** The values of the order menu: the keys of ORDER_MAP. *)
Definition order_value (c : order_choice) : string :=
  match c with
  | choose_priority_created_at => "priority,created_at"
  | choose_created_at => "created_at"
  | choose_priority => "priority"
  end.

Inductive event : Type :=
| type_entry_name (s : string)
| type_entry_desc (s : string)
| type_entry_due (s : string)
| pick_priority_opt (c : priority_choice)
| click_add_task (utcnow : datetime)
| type_search (s : string)
| pick_order (c : order_choice)
| click_refresh
| flip_theme_switch
| click_export (path : string) (flt : fault)
| type_details_name (s : string)
| type_details_desc (s : string)
| type_details_due (s : string)
| pick_details_priority (c : priority_choice)
| click_save
| click_delete (answer : bool)
| click_view (w : nat)
| click_mark (w : nat)
| click_card_delete (w : nat) (answer : bool)
| timer (i : nat)
| mouse_enter (w : nat)
| mouse_leave (w : nat).

Definition set_form_field (f : form_panel -> form_panel) : ui unit :=
  update_ui (fun a => set_form (f (form a)) a).

Definition set_details_field (f : details_panel -> details_panel) : ui unit :=
  update_ui (fun a => set_details (f (details a)) a).

(** The button of the card with frame [w], when there is such a card. *)
Definition on_card (w : nat) (command : Z -> ui unit) : ui unit :=
  let* cards := gets task_card_widgets in
  match find (fun c => Nat.eqb (widget c) w) cards with
  | Some c => command (card_task c)
  | None => ui_ret tt
  end.

Definition handler (e : event) : ui unit :=
  match e with
  | type_entry_name s =>
      set_form_field (fun f => mkForm s (entry_desc f) (entry_due f) (priority_opt f))
  | type_entry_desc s =>
      set_form_field (fun f => mkForm (entry_name f) s (entry_due f) (priority_opt f))
  | type_entry_due s =>
      set_form_field (fun f => mkForm (entry_name f) (entry_desc f) s (priority_opt f))
  | pick_priority_opt c =>
      set_form_field (fun f => mkForm (entry_name f) (entry_desc f) (entry_due f)
                                      (priority_value c))
  | click_add_task utcnow => add_task_from_form utcnow
  | type_search s => update_ui (set_search_var s) ;;; refresh_tasks
  | pick_order c => update_ui (set_order_var (order_value c)) ;;; refresh_tasks
  | click_refresh => refresh_tasks
  | flip_theme_switch =>
      update_ui (fun a => set_dark_mode_var (negb (dark_mode_var a)) a) ;;;
      toggle_dark_mode
  | click_export path flt => export_csv_dialog path flt
  | type_details_name s =>
      set_details_field (fun p => mkDetails s (details_desc p) (details_desc_enabled p)
                                            (details_due p) (details_priority p)
                                            (details_meta p))
  | type_details_desc s =>
      set_details_field (fun p =>
        if details_desc_enabled p
        then mkDetails (details_name p) s true (details_due p) (details_priority p)
                       (details_meta p)
        else p)
  | type_details_due s =>
      set_details_field (fun p => mkDetails (details_name p) (details_desc p)
                                            (details_desc_enabled p) s
                                            (details_priority p) (details_meta p))
  | pick_details_priority c =>
      set_details_field (fun p => mkDetails (details_name p) (details_desc p)
                                            (details_desc_enabled p) (details_due p)
                                            (priority_value c) (details_meta p))
  | click_save => save_selected_task
  | click_delete answer => delete_selected_task answer
  | click_view w => on_card w on_task_selected
  | click_mark w => on_card w toggle_complete_and_reload
  | click_card_delete w answer => on_card w (fun k => delete_and_reload k answer)
  | timer i => timer_fires i
  | mouse_enter w => on_frame w on_enter
  | mouse_leave w => on_frame w on_leave
  end.

(** The window after an event; an exception ends the handler only. *)
Definition handle (e : event) (a : app) : app := snd (handler e a).

Definition run (es : list event) (a : app) : app :=
  fold_left (fun a e => handle e a) es a.

Close Scope string_scope.

(** ** Vocabulary of the properties of the window *)

Open Scope string_scope.

(** A card apart from its colour, which a pulse or the mouse may have
    changed, and from the colour that the mouse has put by. *)
Definition uncolored (c : card_widget) : card_widget :=
  mkCard (widget c) (card_task c) "" (title_text c) (title_color c)
         (meta_text c) (meta_color c) (comp_text c)
         (hover_color c) (base_bg c) None.

(** The window apart from the colours of the cards, the timers and the
    counters that name new frames and timers. *)
Definition core (a : app) :=
  (db_file a, disk a, appearance_dark a, dark_mode_var a, window a, search_var a,
   order_var a, form a, details a, selected_task_id a,
   map uncolored (task_card_widgets a), dialogs a).

Definition online (a : app) : Prop := exists d, db_file a = Online d.

(** The listing the window asks for: stripped search text, order of the
    order menu. *)
Definition listing (a : app) : outcome (list row) :=
  get_tasks (strip (search_var a)) (order_by_clause (order_var a)) (db_file a).

Definition listed (a : app) : app :=
  match listing a with
  | Returns tasks =>
      set_task_card_widgets (render_cards (appearance_dark a) (next_widget a) tasks) a
  | Raises _ => set_task_card_widgets [] a
  end.

Definition stored_task (task_id : Z) (a : app) : option row :=
  match get_task_by_id task_id (db_file a) with
  | Returns r => r
  | Raises _ => None
  end.

Definition select (task_id : Z) (a : app) : app :=
  match stored_task task_id a with
  | Some t => set_details (details_of t) (set_selected_task_id (Some task_id) a)
  | None => a
  end.

Definition deselect (a : app) : app :=
  set_details cleared_details (set_selected_task_id None a).

Definition reshown (a : app) : app :=
  match selected_truthy a with
  | None => a
  | Some k =>
      match stored_task k a with
      | Some _ => select k a
      | None => deselect a
      end
  end.

(** What [refresh_tasks] makes of the window, colours and timers apart. *)
Definition refreshed (a : app) : app := reshown (listed a).

Definition told (d : dialog) (a : app) : app := set_dialogs (dialogs a ++ [d])%list a.

Definition written (w : store -> outcome store) (a : app) : app :=
  set_db_file (store_after (db_file a) (w (db_file a))) a.

Definition card_of (w : nat) (a : app) : option card_widget :=
  find (fun c => Nat.eqb (widget c) w) (task_card_widgets a).

Definition chrome_of (p : palette) (is_dark : bool) : chrome :=
  mkChrome (window_bg p) (panel p) (glass p) (panel p)
           (Some (theme_text_color is_dark)) (Some (theme_muted_color is_dark)).

Definition blank_name_warning : dialog :=
  showwarning "Validation" "Task name is required.".

(** What an event makes of the window, colours and timers apart, when the
    database file can be opened. *)
Definition effect (e : event) (a : app) : app :=
  match e with
  | click_add_task utcnow =>
      let name := strip (entry_name (form a)) in
      if String.eqb name "" then told blank_name_warning a
      else
        refreshed
          (set_form cleared_form
             (written (add_task name (Some (strip (entry_desc (form a))))
                                (or_None (Some (strip (entry_due (form a)))))
                                (Int (priority_of_menu (priority_opt (form a)))) utcnow)
                      a))
  | type_search s => refreshed (set_search_var s a)
  | pick_order c => refreshed (set_order_var (order_value c) a)
  | click_refresh => refreshed a
  | flip_theme_switch =>
      let dark := negb (dark_mode_var a) in
      refreshed
        (set_window (chrome_of (if dark then DARK else LIGHT) dark)
           (set_appearance_dark dark (set_dark_mode_var dark a)))
  | click_save =>
      match selected_truthy a with
      | None =>
          told (showinfo "Info" "Select a task first or use Add Task on the left to create.") a
      | Some k =>
          let name := strip (details_name (details a)) in
          if String.eqb name "" then told blank_name_warning a
          else
            refreshed
              (deselect
                 (told (showinfo "Saved" "Task updated.")
                    (written
                       (update_task k name
                          (Some (strip (textbox_get (details_desc (details a)))))
                          (or_None (Some (strip (details_due (details a)))))
                          (Int (priority_of_menu (details_priority (details a)))))
                       a)))
      end
  | click_delete answer =>
      match selected_truthy a with
      | None => told (showinfo "Info" "No task selected.") a
      | Some k =>
          let asked := told (askyesno "Confirm" "Delete selected task?") a in
          if answer then refreshed (deselect (written (delete_task k) asked)) else asked
      end
  | click_view w =>
      match card_of w a with
      | Some c => select (card_task c) a
      | None => a
      end
  | click_mark w =>
      match card_of w a with
      | Some c =>
          let k := card_task c in
          let b := written (toggle_completed k) a in
          refreshed (if is_selected k b then deselect b else b)
      | None => a
      end
  | click_card_delete w answer =>
      match card_of w a with
      | Some c =>
          let k := card_task c in
          let asked := told (askyesno "Confirm" "Delete this task?") a in
          if answer then
            let b := written (delete_task k) asked in
            refreshed (if is_selected k b then deselect b else b)
          else asked
      | None => a
      end
  | timer _ | mouse_enter _ | mouse_leave _ => a
  | _ => handle e a
  end.

(** At most one timer is pending, and [pulse_after_id] names it. *)
Definition one_pulse (a : app) : Prop :=
  match pulse_after_id a with
  | Some i => exists p, timers a = [(i, p)]
  | None => timers a = []
  end.

Close Scope string_scope.

(** ** What the window keeps *)

Open Scope string_scope.

(** A row as the two forms write it: name, description and due date
    stripped, the name not empty, an empty due date as NULL, an integer
    priority. *)
Definition normal (t : row) : Prop :=
  strip (name t) = name t /\ name t <> "" /\
  (exists ds, description t = Some ds /\ strip ds = ds) /\
  or_None (due_date t) = due_date t /\
  (forall du, due_date t = Some du -> strip du = du) /\
  exists p, priority t = Int p.

Definition tidy (s : store) : Prop :=
  primary_key s /\ forall d, s = Online d -> forall t, In t (rows d) -> normal t.

Definition priority_values : list string := ["1 - High"; "2 - Medium"; "3 - Low"].

(** The priorities of the store are 1, 2 or 3 and both priority menus show
    one of their values. *)
Definition priorities_in_range (a : app) : Prop :=
  (exists d, db_file a = Online d /\
             forall t, In t (rows d) ->
               priority t = Int 1 \/ priority t = Int 2 \/ priority t = Int 3) /\
  In (priority_opt (form a)) priority_values /\
  In (details_priority (details a)) priority_values.

(** The cards are the listing for the search text, the order and the theme
    of the window, one card for each task, in the order of the listing. *)
Definition in_sync (a : app) : Prop :=
  exists tasks w,
    listing a = Returns tasks /\
    map uncolored (task_card_widgets a) =
    map uncolored (render_cards (appearance_dark a) w tasks).

(** The selected task is in the store. *)
Definition selection_stored (a : app) : Prop :=
  forall k, selected_task_id a = Some k -> exists t, stored_task k a = Some t.

(** The theme follows the switch, and the frames and labels have the
    colours of its palette. *)
Definition themed (a : app) : Prop :=
  appearance_dark a = dark_mode_var a /\
  window a = chrome_of (if appearance_dark a then DARK else LIGHT) (appearance_dark a).

(** The window when [__init__] is through, for a database file that can be
    opened. *)
Definition started (d : db) (fs : files) : app :=
  snd (startup (build_ui (Online d) fs)).

(** A property of the window that a handler keeps, however it ends. *)
Definition keeps {A : Type} (P : app -> Prop) (c : ui A) : Prop :=
  forall a, P a -> P (snd (c a)).

(** The pending timer fires, if there is one. *)
Definition pulse_on (a : app) : app :=
  match pulse_after_id a with
  | Some i => handle (timer i) a
  | None => a
  end.

Close Scope string_scope.

Open Scope string_scope.

(** The writes that the handlers of the window make to the store. *)
Inductive ui_call (a : app) : call -> Prop :=
| ui_add (utcnow : datetime) :
    strip (entry_name (form a)) <> "" ->
    ui_call a (call_add_task (strip (entry_name (form a)))
                 (Some (strip (entry_desc (form a))))
                 (or_None (Some (strip (entry_due (form a)))))
                 (Int (priority_of_menu (priority_opt (form a)))) utcnow)
| ui_update (k : Z) :
    selected_truthy a = Some k ->
    strip (details_name (details a)) <> "" ->
    ui_call a (call_update_task k (strip (details_name (details a)))
                 (Some (strip (textbox_get (details_desc (details a)))))
                 (or_None (Some (strip (details_due (details a)))))
                 (Int (priority_of_menu (details_priority (details a)))))
| ui_delete (k : Z) : ui_call a (call_delete_task k)
| ui_toggle (k : Z) : ui_call a (call_toggle_completed k).

Close Scope string_scope.

(** The window after [apply_theme(LIGHT)] in [__init__], before the last
    [refresh_tasks]. *)
Definition first_paint (d : db) (fs : files) : app :=
  snd (apply_theme LIGHT (build_ui (Online d) fs)).

(** Two windows that differ in the selection and the details panel at
    most, colours of the cards included. *)
Definition same_setting (a b : app) : Prop :=
  db_file a = db_file b /\ disk a = disk b /\
  appearance_dark a = appearance_dark b /\ dark_mode_var a = dark_mode_var b /\
  window a = window b /\ search_var a = search_var b /\ order_var a = order_var b /\
  form a = form b /\ dialogs a = dialogs b /\
  task_card_widgets a = task_card_widgets b.

(** The window when [animate_selection] has cancelled the pulse under
    way. *)
Definition pulse_cancelled (a : app) : app :=
  match pulse_after_id a with
  | Some i => set_pulse_after_id None (after_cancel i a)
  | None => a
  end.

(** The colour of the pulse of [animate_selection]. *)
Definition pulse_shade (is_dark : bool) : string :=
  if is_dark then "#163144"%string else "#a8d1ff"%string.

(** The window when [step] has run for the steps 0 to [n] of a pulse of
    the card [w] between the colours [former] and [shade]: the card has the
    colour of step [n], and the next step is pending when there is one. *)
Definition pulsing (w : nat) (former shade : string) (cards : list card_widget)
    (n : nat) (b : app) : Prop :=
  task_card_widgets b =
    map (fun c => if Nat.eqb (widget c) w
                  then with_fg_color (if Nat.even n then shade else former) c else c)
        cards /\
  if (S n <=? steps)%nat
  then exists i, pulse_after_id b = Some i /\
                 timers b = [(i, mkPulse w former shade (S n))]
  else pulse_after_id b = None /\ timers b = [].

(** The events whose handlers write to the store: the two forms, Delete
    answered with yes, and Mark Done or Mark Undone. *)
Definition may_write (e : event) : bool :=
  match e with
  | click_add_task _ | click_save | click_mark _ => true
  | click_delete answer | click_card_delete _ answer => answer
  | _ => false
  end.

Definition store_is (s : store) (a : app) : Prop := db_file a = s.



(** A card that has put its colour by in [_prev_bg]. *)
Definition remembering (c : card_widget) : card_widget :=
  mkCard (widget c) (card_task c) (fg_color c) (title_text c) (title_color c)
         (meta_text c) (meta_color c) (comp_text c)
         (hover_color c) (base_bg c) (Some (fg_color c)).

(** * Properties *)

(** ** Comparisons *)

Lemma ascii_compare_refl (a : ascii) : Ascii.compare a a = Eq.
Proof. unfold Ascii.compare. apply N.compare_refl. Qed.

Lemma ascii_compare_lt_trans (a b c : ascii) :
  Ascii.compare a b = Lt -> Ascii.compare b c = Lt -> Ascii.compare a c = Lt.
Proof.
  unfold Ascii.compare. rewrite !N.compare_lt_iff. apply N.lt_trans.
Qed.

Lemma string_compare_refl (s : string) : String.compare s s = Eq.
Proof.
  induction s as [|c s IH]; simpl; [reflexivity|].
  now rewrite ascii_compare_refl.
Qed.

Lemma string_compare_lt_trans (a b c : string) :
  String.compare a b = Lt -> String.compare b c = Lt -> String.compare a c = Lt.
Proof.
  revert b c. induction a as [|x a IH]; intros [|y b] [|z c]; simpl;
    try discriminate; auto.
  destruct (Ascii.compare x y) eqn:Exy; try discriminate;
    destruct (Ascii.compare y z) eqn:Eyz; try discriminate; intros Hab Hbc.
  - apply Ascii.compare_eq_iff in Exy, Eyz. subst.
    rewrite ascii_compare_refl. eauto.
  - apply Ascii.compare_eq_iff in Exy. subst. now rewrite Eyz.
  - apply Ascii.compare_eq_iff in Eyz. subst. now rewrite Exy.
  - now rewrite (ascii_compare_lt_trans _ _ _ Exy Eyz).
Qed.

Lemma value_compare_eq_iff (a b : value) : value_compare a b = Eq <-> a = b.
Proof.
  destruct a, b; simpl; split; intros H; try discriminate; try reflexivity.
  - apply Z.compare_eq in H. now subst.
  - injection H as ->. apply Z.compare_refl.
  - apply String.compare_eq_iff in H. now subst.
  - injection H as ->. apply string_compare_refl.
Qed.

Lemma value_compare_antisym (a b : value) :
  value_compare a b = CompOpp (value_compare b a).
Proof.
  destruct a, b; simpl; auto using Z.compare_antisym, String.compare_antisym.
Qed.

Lemma value_compare_lt_trans (a b c : value) :
  value_compare a b = Lt -> value_compare b c = Lt -> value_compare a c = Lt.
Proof.
  destruct a, b, c; simpl; try discriminate; auto.
  - rewrite !Z.compare_lt_iff. apply Z.lt_trans.
  - apply string_compare_lt_trans.
Qed.

(** A comparison that is a strict order with [Eq] as equality of keys. *)
Section Keys.
Variables (K : Type) (cmp : K -> K -> comparison).
Hypothesis cmp_eq : forall a b, cmp a b = Eq <-> a = b.
Hypothesis cmp_antisym : forall a b, cmp a b = CompOpp (cmp b a).
Hypothesis cmp_lt_trans : forall a b c, cmp a b = Lt -> cmp b c = Lt -> cmp a c = Lt.

Lemma cmp_not_gt_trans (a b c : K) :
  cmp a b <> Gt -> cmp b c <> Gt -> cmp a c <> Gt.
Proof.
  intros Hab Hbc.
  destruct (cmp a b) eqn:Eab; try congruence.
  - apply cmp_eq in Eab. now subst.
  - destruct (cmp b c) eqn:Ebc; try congruence.
    + apply cmp_eq in Ebc. subst. congruence.
    + rewrite (cmp_lt_trans _ _ _ Eab Ebc). discriminate.
Qed.

Lemma cmp_gt_lt (a b : K) : cmp a b = Gt <-> cmp b a = Lt.
Proof.
  rewrite (cmp_antisym a b). destruct (cmp b a); simpl; split; congruence.
Qed.
End Keys.

Lemma string_compare_eq (a b : string) : String.compare a b = Eq <-> a = b.
Proof.
  split; [apply String.compare_eq_iff | intros ->; apply string_compare_refl].
Qed.

Section Lex.
Variables (K1 K2 : Type) (cmp1 : K1 -> K1 -> comparison) (cmp2 : K2 -> K2 -> comparison).
Hypothesis eq1 : forall a b, cmp1 a b = Eq <-> a = b.
Hypothesis eq2 : forall a b, cmp2 a b = Eq <-> a = b.
Hypothesis antisym1 : forall a b, cmp1 a b = CompOpp (cmp1 b a).
Hypothesis antisym2 : forall a b, cmp2 a b = CompOpp (cmp2 b a).
Hypothesis trans1 : forall a b c, cmp1 a b = Lt -> cmp1 b c = Lt -> cmp1 a c = Lt.
Hypothesis trans2 : forall a b c, cmp2 a b = Lt -> cmp2 b c = Lt -> cmp2 a c = Lt.

Lemma lex_eq (a b : K1 * K2) : lex cmp1 cmp2 a b = Eq <-> a = b.
Proof.
  destruct a as [a1 a2], b as [b1 b2]; unfold lex; simpl.
  destruct (cmp1 a1 b1) eqn:E.
  - apply eq1 in E. subst. rewrite eq2. split; congruence.
  - split; [discriminate|]. intros [= H _]. apply eq1 in H. congruence.
  - split; [discriminate|]. intros [= H _]. apply eq1 in H. congruence.
Qed.

Lemma lex_antisym (a b : K1 * K2) : lex cmp1 cmp2 a b = CompOpp (lex cmp1 cmp2 b a).
Proof.
  unfold lex. rewrite (antisym1 (fst a) (fst b)).
  destruct (cmp1 (fst b) (fst a)); simpl; auto.
Qed.

Lemma lex_lt_trans (a b c : K1 * K2) :
  lex cmp1 cmp2 a b = Lt -> lex cmp1 cmp2 b c = Lt -> lex cmp1 cmp2 a c = Lt.
Proof.
  unfold lex.
  destruct (cmp1 (fst a) (fst b)) eqn:Eab; try discriminate;
    destruct (cmp1 (fst b) (fst c)) eqn:Ebc; try discriminate; intros Hab Hbc.
  - apply eq1 in Eab, Ebc. rewrite Eab, Ebc.
    replace (cmp1 (fst c) (fst c)) with Eq by (symmetry; now apply eq1). eauto.
  - apply eq1 in Eab. now rewrite Eab, Ebc.
  - apply eq1 in Ebc. now rewrite <- Ebc, Eab.
  - now rewrite (trans1 _ _ _ Eab Ebc).
Qed.
End Lex.

Lemma order_compare_key (o : order_clause) (a b : row) :
  order_compare o a b = key_compare (sort_key o b) (sort_key o a).
Proof.
  destruct o; unfold key_compare, lex; simpl; auto.
  destruct (value_compare (priority b) (priority a)); reflexivity.
Qed.

Lemma key_compare_not_gt_trans (a b c : value * string) :
  key_compare a b <> Gt -> key_compare b c <> Gt -> key_compare a c <> Gt.
Proof.
  apply (cmp_not_gt_trans _ key_compare).
  - intros x y. apply lex_eq;
      [exact value_compare_eq_iff | exact string_compare_eq].
  - intros x y z. apply lex_lt_trans;
      [exact value_compare_eq_iff | exact value_compare_lt_trans
      | exact string_compare_lt_trans].
Qed.

Lemma key_compare_antisym (a b : value * string) :
  key_compare a b = CompOpp (key_compare b a).
Proof.
  apply lex_antisym; [exact value_compare_antisym | exact String.compare_antisym].
Qed.

Lemma precedes_iff (o : order_clause) (a b : row) :
  precedes o a b = true <-> order_compare o a b <> Gt.
Proof.
  unfold precedes. destruct (order_compare o a b); split; congruence.
Qed.

Lemma precedes_total (o : order_clause) (a b : row) :
  precedes o a b = false -> precedes o b a = true.
Proof.
  unfold precedes. rewrite !order_compare_key.
  rewrite (key_compare_antisym (sort_key o a) (sort_key o b)).
  destruct (key_compare (sort_key o b) (sort_key o a)); simpl; congruence.
Qed.

Lemma precedes_trans (o : order_clause) (a b c : row) :
  precedes o a b = true -> precedes o b c = true -> precedes o a c = true.
Proof.
  rewrite !precedes_iff, !order_compare_key. intros Hab Hbc.
  eapply key_compare_not_gt_trans; eassumption.
Qed.

(** ** ORDER BY sorts and only rearranges *)

Lemma insert_sorted_perm (o : order_clause) (x : row) (l : list row) :
  Permutation (insert_sorted o x l) (x :: l).
Proof.
  induction l as [|y l IH]; simpl; [reflexivity|].
  destruct (precedes o x y); [reflexivity|].
  rewrite IH. apply perm_swap.
Qed.

Lemma order_by_perm (o : order_clause) (l : list row) :
  Permutation (order_by o l) l.
Proof.
  induction l as [|x l IH]; simpl; [reflexivity|].
  rewrite insert_sorted_perm. now constructor.
Qed.

Lemma insert_sorted_sorted (o : order_clause) (x : row) (l : list row) :
  StronglySorted (in_order o) l -> StronglySorted (in_order o) (insert_sorted o x l).
Proof.
  induction 1 as [|y l Hl IH Hy]; simpl.
  - repeat constructor.
  - destruct (precedes o x y) eqn:E.
    + constructor; [now constructor|].
      constructor; [exact E|].
      eapply Forall_impl; [|exact Hy].
      intros z Hz. eapply precedes_trans; eassumption.
    + constructor; [exact IH|].
      eapply Permutation_Forall; [symmetry; apply insert_sorted_perm|].
      constructor; [now apply precedes_total | exact Hy].
Qed.

Lemma order_by_sorted (o : order_clause) (l : list row) :
  StronglySorted (in_order o) (order_by o l).
Proof.
  induction l as [|x l IH]; simpl; [constructor|].
  now apply insert_sorted_sorted.
Qed.

Lemma order_by_In (o : order_clause) (l : list row) (r : row) :
  In r (order_by o l) <-> In r l.
Proof.
  split; apply Permutation_in; [|symmetry]; apply order_by_perm.
Qed.

Lemma precedes_priority_then_recency (a b : row) :
  in_order priority_DESC_created_at_DESC a b <-> priority_then_recency a b.
Proof.
  unfold in_order, precedes, priority_then_recency; simpl.
  rewrite (value_compare_antisym (priority a) (priority b)).
  rewrite (String.compare_antisym (created_at a) (created_at b)).
  destruct (value_compare (priority b) (priority a)) eqn:E; simpl.
  - apply value_compare_eq_iff in E.
    destruct (String.compare (created_at b) (created_at a)); simpl;
      split; intros H; try discriminate; auto.
    + right. split; [auto | discriminate].
    + right. split; [auto | discriminate].
    + destruct H as [H | [_ H]]; [discriminate | congruence].
  - split; auto.
  - split; [discriminate|]. intros [H | [H _]]; [discriminate|].
    rewrite H in E.
    assert (E' : value_compare (priority b) (priority b) = Eq)
      by now apply value_compare_eq_iff.
    congruence.
Qed.

Lemma StronglySorted_iff {A : Type} (R S : A -> A -> Prop) (l : list A) :
  (forall a b, R a b <-> S a b) -> StronglySorted R l -> StronglySorted S l.
Proof.
  intros HRS. induction 1 as [|x l Hl IH Hx]; constructor; auto.
  eapply Forall_impl; [|exact Hx]. intros y. apply HRS.
Qed.

(** For integer priorities the order reads as on numbers. *)
Lemma priority_then_recency_int (a b : row) (x y : Z) :
  priority a = Int x -> priority b = Int y ->
  priority_then_recency a b <->
  x > y \/ (x = y /\ String.compare (created_at a) (created_at b) <> Lt).
Proof.
  intros Ha Hb. unfold priority_then_recency. rewrite Ha, Hb. simpl.
  rewrite Z.compare_gt_iff. split.
  - intros [H | [[= ->] H]]; [left; lia | right; auto].
  - intros [H | [-> H]]; [left; lia | right; auto].
Qed.

(** ** Claim C4 *)

(** C4: with the order of the key "priority,created_at" (priority DESC,
    created_at DESC), [get_tasks] returns, for every store and filter, the
    selected rows, each once, so that every row stands before all rows of
    lower priority and, among rows of equal priority, before all rows created
    earlier. *)
Theorem get_tasks_priority_then_recency (filter_text : string) (d : db) :
  exists l,
    get_tasks filter_text (order_by_clause "priority,created_at") (Online d) = Returns l /\
    StronglySorted priority_then_recency l /\
    Permutation l
      (filter (fun r => negb (truthy (Text filter_text)) ||
                        name_or_description (sql_like ("%" ++ filter_text ++ "%")) r)
              (rows d)).
Proof.
  unfold get_tasks; simpl get_connection; cbv beta iota delta [bind].
  change (order_by_clause "priority,created_at") with priority_DESC_created_at_DESC.
  destruct (truthy (Text filter_text)) eqn:Hf.
  - eexists; split; [reflexivity|]. split.
    + eapply StronglySorted_iff; [apply precedes_priority_then_recency|].
      apply order_by_sorted.
    + unfold sql_select_like. apply order_by_perm.
  - eexists; split; [reflexivity|]. split.
    + eapply StronglySorted_iff; [apply precedes_priority_then_recency|].
      apply order_by_sorted.
    + unfold sql_select_all. rewrite order_by_perm. simpl.
      assert (H : filter (fun _ : row => true) (rows d) = rows d).
      { induction (rows d) as [|x l IH]; simpl; congruence. }
      now rewrite H.
Qed.

(** ** LIKE with a pattern between two '%' *)






Lemma prefix_by_spec (eqc : ascii -> ascii -> bool) (p s : string) :
  prefix_by eqc p s = true <->
  exists m post, s = (m ++ post)%string /\ same_by eqc p m = true.
Proof.
  revert s. induction p as [|c p IH]; intros s; simpl.
  - split; [intros _; exists EmptyString, s; auto | auto].
  - destruct s as [|d s].
    + split; [discriminate|]. intros (m & post & Hs & Hm).
      destruct m; [discriminate|]. discriminate.
    + rewrite andb_true_iff, IH. split.
      * intros (Hc & m & post & -> & Hm). exists (String d m), post.
        simpl. rewrite Hc, Hm. auto.
      * intros (m & post & Hs & Hm). destruct m as [|e m]; [discriminate|].
        simpl in Hs. injection Hs as -> ->.
        apply andb_true_iff in Hm as [Hc Hm]. eauto.
Qed.

(** [contains_by eqc p s]: some stretch of [s] agrees with [p] character by
    character. *)
Lemma contains_by_spec (eqc : ascii -> ascii -> bool) (p s : string) :
  contains_by eqc p s = true <->
  exists pre m post, s = (pre ++ m ++ post)%string /\ same_by eqc p m = true.
Proof.
  induction s as [|d s IH]; simpl contains_by; rewrite orb_true_iff, prefix_by_spec.
  - split.
    + intros [(m & post & Hs & Hm) | H]; [|discriminate].
      exists EmptyString, m, post. auto.
    + intros (pre & m & post & Hs & Hm). left.
      destruct pre; [|discriminate]. exists m, post. auto.
  - rewrite IH. split.
    + intros [(m & post & Hs & Hm) | (pre & m & post & -> & Hm)].
      * exists EmptyString, m, post. auto.
      * exists (String d pre), m, post. auto.
    + intros (pre & m & post & Hs & Hm). destruct pre as [|e pre].
      * left. exists m, post. auto.
      * right. simpl in Hs. injection Hs as _ ->. exists pre, m, post. auto.
Qed.

Lemma same_by_eqb (a b : string) : same_by Ascii.eqb a b = true <-> a = b.
Proof.
  revert b. induction a as [|c a IH]; intros [|d b]; simpl;
    try (split; [discriminate | congruence]); [tauto|].
  rewrite andb_true_iff, Ascii.eqb_eq, IH. split.
  - intros [-> ->]. reflexivity.
  - intros [= -> ->]. auto.
Qed.

(** [contains] is the substring relation. *)
Lemma contains_spec (p s : string) :
  contains p s = true <-> exists pre post, s = (pre ++ p ++ post)%string.
Proof.
  unfold contains. rewrite contains_by_spec. split.
  - intros (pre & m & post & -> & Hm). apply same_by_eqb in Hm. subst. eauto.
  - intros (pre & post & ->). exists pre, p, post. split; [auto|].
    now apply same_by_eqb.
Qed.

Lemma filter_true {A : Type} (l : list A) : filter (fun _ => true) l = l.
Proof. induction l as [|x l IH]; simpl; congruence. Qed.

(** ** Claim C1 *)




(** ** Claim C2 *)

(** C2, as stated, fails: the stored priority 5 is no member of {1,2,3}, yet
    the card gets the default card colour of the theme, not the colour of
    Medium, and the selector is set to "5 - Low", not to "2 - Medium". *)
Lemma priority_5_not_coerced :
  card_bg (with_priority (Int 5)) false = card LIGHT /\
  card_bg (with_priority (Int 5)) false <> get_priority_bg (Int 2) false /\
  get_priority_bg (Int 5) true <> get_priority_bg (Int 2) true /\
  details_priority_label (with_priority (Int 5)) = "5 - Low"%string /\
  details_priority_label (with_priority (Int 5)) <> "2 - Medium"%string.
Proof. repeat split; try reflexivity; discriminate. Qed.

Lemma int_dict_get_other (p : Z) (m : list (Z * string)) (default : string) :
  (forall k v, In (k, v) m -> k <> p) -> int_dict_get m p default = default.
Proof.
  induction m as [|[k v] m IH]; intros H; simpl; [reflexivity|].
  destruct (Z.eqb_spec k p) as [->|_].
  - exfalso. apply (H p v); [now left | reflexivity].
  - apply IH. intros k' v' Hin. apply (H k' v'). now right.
Qed.

(** C2, amended: a stored priority that [int] cannot convert (NULL, or text
    that is no integer literal) is treated as 2 (Medium) for the background
    of the card and for the priority selector of the details panel; an
    integer outside {1,2,3} is not coerced: the card gets the default card
    colour of the theme and the selector shows that integer with the word
    Low. *)
Theorem priority_presentation (t : row) (is_dark : bool) :
  (py_int (priority t) = None ->
   card_bg t is_dark = get_priority_bg (Int 2) is_dark /\
   get_priority_bg (priority t) is_dark = get_priority_bg (Int 2) is_dark /\
   details_priority_label t = "2 - Medium"%string) /\
  (forall p, py_int (priority t) = Some p -> p <> 1 -> p <> 2 -> p <> 3 ->
   card_bg t is_dark = card (if is_dark then DARK else LIGHT) /\
   get_priority_bg (priority t) is_dark = card (if is_dark then DARK else LIGHT) /\
   details_priority_label t = (str_int p ++ " - Low")%string).
Proof.
  split.
  - intros H. unfold card_bg, get_priority_bg, details_priority_label, int_or_2.
    rewrite H. simpl. auto.
  - intros p H H1 H2 H3.
    assert (Hbg : get_priority_bg (Int p) is_dark = card (if is_dark then DARK else LIGHT)).
    { unfold get_priority_bg, int_or_2. simpl py_int. cbv iota beta.
      destruct is_dark; apply int_dict_get_other; simpl; intros k v Hin;
        repeat (destruct Hin as [[= <- _] | Hin]; [congruence|]); contradiction. }
    assert (Hp : int_or_2 (priority t) = p) by (unfold int_or_2; now rewrite H).
    unfold card_bg, details_priority_label.
    replace (get_priority_bg (priority t) is_dark) with (get_priority_bg (Int p) is_dark)
      by (unfold get_priority_bg; simpl; now rewrite Hp).
    rewrite Hp.
    destruct (Z.eqb_spec p 1); [contradiction|].
    destruct (Z.eqb_spec p 2); [contradiction|]. auto.
Qed.

Lemma priority_presentation_witness :
  (card_bg (with_priority (Text "urgent")) true = get_priority_bg (Int 2) true /\
   details_priority_label (with_priority (Text "urgent")) = "2 - Medium"%string) /\
  (card_bg (with_priority (Int 0)) true = card DARK /\
   details_priority_label (with_priority (Int 0)) = "0 - Low"%string).
Proof.
  split.
  - destruct (priority_presentation (with_priority (Text "urgent")) true) as [H _].
    destruct (H eq_refl) as (H1 & _ & H3). split; assumption.
  - destruct (priority_presentation (with_priority (Int 0)) true) as [_ H].
    destruct (H 0 eq_refl) as (H1 & _ & H3); try discriminate. split; assumption.
Defined.

(** ** The export *)

Lemma string_app_nil_r (s : string) : (s ++ "")%string = s.
Proof. induction s as [|c s IH]; simpl; congruence. Qed.

Lemma string_app_assoc (a b c : string) : ((a ++ b) ++ c)%string = (a ++ b ++ c)%string.
Proof. induction a as [|x a IH]; simpl; congruence. Qed.

Lemma writerows_no_fault (records : list (list value)) (k : nat) (f : string) :
  writerows NoFault k records f = (Returns tt, (f ++ csv_text records)%string).
Proof.
  revert k f. induction records as [|r rest IH]; intros k f; simpl.
  - now rewrite string_app_nil_r.
  - now rewrite IH, string_app_assoc.
Qed.

(** When the write of record [n] raises, the records before it are in the
    file. *)
Lemma writerows_fault (n : nat) (e : exn) (records : list (list value)) (k : nat)
    (f : string) :
  (k <= n)%nat ->
  writerows (WriteFails n e) k records f =
  if (n - k <? List.length records)%nat
  then (Raises e, (f ++ csv_text (firstn (n - k) records))%string)
  else (Returns tt, (f ++ csv_text records)%string).
Proof.
  revert k f. induction records as [|r rest IH]; intros k f Hk.
  - simpl. now rewrite string_app_nil_r.
  - cbn [writerows write_fails]. destruct (Nat.eqb_spec n k) as [->|Hne].
    + rewrite Nat.sub_diag. simpl. now rewrite string_app_nil_r.
    + rewrite IH by lia.
      replace (n - k)%nat with (S (n - S k)) by lia.
      cbn [List.length firstn csv_text fold_right].
      change (S (n - S k) <? S (List.length rest))%nat
        with (n - S k <? List.length rest)%nat.
      destruct (n - S k <? List.length rest)%nat; now rewrite string_app_assoc.
Qed.

Lemma put_file_same (path content : string) (fs : files) :
  put_file path content fs path = Some content.
Proof. unfold put_file. now rewrite String.eqb_refl. Qed.

Lemma put_file_other (path content : string) (fs : files) (p : string) :
  p <> path -> put_file path content fs p = fs p.
Proof.
  intros H. unfold put_file. destruct (String.eqb_spec p path); congruence.
Qed.


(** ** Claim C5 *)


(** ** Claim C3 *)

(** C3, as stated, fails: when the store cannot be opened, the read of the
    tasks raises before the [try] is entered and the export raises the same
    exception instead of returning a failure result. *)
Lemma export_offline_raises :
  fst (export_tasks_to_csv "tasks.csv" (Offline locked) NoFault no_files) = Raises locked /\
  forall ok msg,
    fst (export_tasks_to_csv "tasks.csv" (Offline locked) NoFault no_files)
    <> Returns (ok, msg).
Proof. split; [reflexivity | discriminate]. Qed.

(** C3, amended: an exception raised by [open] or by a write to the file is
    caught and turned into the result (False, text of the exception); after
    a failed [open] no file has changed, after a failed write the file holds
    the records written before it and no other file has changed.  An
    exception raised by the read of the tasks from the store is raised
    before the [try] and reaches the caller. *)
Theorem export_failures (filepath : string) (s : store) (flt : fault) (fs : files) :
  (forall e, s = Offline e -> export_tasks_to_csv filepath s flt fs = (Raises e, fs)) /\
  (forall d, s = Online d ->
   exists tasks ok msg fs',
     get_tasks "" default_order s = Returns tasks /\
     export_tasks_to_csv filepath s flt fs = (Returns (ok, msg), fs') /\
     (forall p, p <> filepath -> fs' p = fs p) /\
     (forall e, flt = OpenFails e -> ok = false /\ msg = exn_text e /\ fs' = fs) /\
     (forall n e, flt = WriteFails n e -> (n <= List.length tasks)%nat ->
        ok = false /\ msg = exn_text e /\
        fs' filepath = Some (csv_text (firstn n (csv_header :: map row_tuple tasks))))).
Proof.
  split.
  - intros e ->. reflexivity.
  - intros d ->. exists (sql_select_all default_order d).
    unfold export_tasks_to_csv.
    cbn [get_tasks get_connection bind truthy String.eqb negb].
    destruct flt as [|e|n e]; cbn [open_w].
    + rewrite writerows_no_fault. do 3 eexists.
      split; [reflexivity|]. split; [reflexivity|].
      split; [|split]; try discriminate.
      intros p Hp. now rewrite !put_file_other.
    + do 3 eexists. split; [reflexivity|]. split; [reflexivity|].
      split; [reflexivity|]. split; [|discriminate].
      intros e' [= <-]. auto.
    + rewrite writerows_fault by lia. rewrite Nat.sub_0_r.
      destruct (n <? List.length (csv_header :: map row_tuple (sql_select_all default_order d)))%nat eqn:E.
      * do 3 eexists. split; [reflexivity|]. split; [reflexivity|].
        split; [|split]; try discriminate.
        { intros p Hp. now rewrite !put_file_other. }
        intros n' e' [= <- <-] _. rewrite put_file_same. auto.
      * apply Nat.ltb_ge in E. cbn [List.length] in E. rewrite length_map in E.
        do 3 eexists. split; [reflexivity|]. split; [reflexivity|].
        split; [|split]; try discriminate.
        { intros p Hp. now rewrite !put_file_other. }
        intros n' e' [= <- <-] Hn. lia.
Qed.

Lemma export_failures_witness :
  export_tasks_to_csv "tasks.csv" (Offline locked) NoFault no_files = (Raises locked, no_files) /\
  exists tasks ok msg fs',
    get_tasks "" default_order (Online milk_db) = Returns tasks /\
    export_tasks_to_csv "tasks.csv" (Online milk_db) (WriteFails 1 disk_full) no_files
      = (Returns (ok, msg), fs') /\
    ok = false /\ msg = exn_text disk_full /\
    fs' "tasks.csv"%string = Some header_line.
Proof.
  split.
  - apply (proj1 (export_failures "tasks.csv" (Offline locked) NoFault no_files) locked eq_refl).
  - destruct (proj2 (export_failures "tasks.csv" (Online milk_db) (WriteFails 1 disk_full) no_files)
                milk_db eq_refl) as (tasks & ok & msg & fs' & Ht & He & _ & _ & Hw).
    exists tasks, ok, msg, fs'. split; [exact Ht|]. split; [exact He|].
    injection Ht as <-.
    destruct (Hw 1%nat disk_full eq_refl) as (H1 & H2 & H3); [simpl; lia|].
    auto.
Defined.

(** ** Rows and their identifiers *)

Lemma max_rowid_ge (l : list row) (t : row) : In t l -> id t <= max_rowid l.
Proof.
  induction l as [|x l IH]; simpl; [contradiction|].
  intros [-> | H]; [lia|]. specialize (IH H). lia.
Qed.

Lemma next_rowid_fresh (d : db) (t : row) : In t (rows d) -> id t < next_rowid d.
Proof.
  intros H. apply max_rowid_ge in H. unfold next_rowid. lia.
Qed.


Lemma find_id_map (k : Z) (f : row -> row) (l : list row) :
  (forall t, id (f t) = id t) ->
  find (fun t => id t =? k) (map f l) = option_map f (find (fun t => id t =? k) l).
Proof.
  intros Hf. induction l as [|x l IH]; simpl; [reflexivity|].
  rewrite Hf. destruct (id x =? k); [reflexivity | exact IH].
Qed.


Lemma filter_id_absent (k : Z) (l : list row) :
  (forall t, In t l -> id t <> k) ->
  filter (fun t => negb (id t =? k)) l = l.
Proof.
  induction l as [|x l IH]; intros H; simpl; [reflexivity|].
  rewrite IH by (intros t Ht; apply H; now right).
  destruct (Z.eqb_spec (id x) k) as [E|_]; [|reflexivity].
  exfalso. apply (H x); [now left | exact E].
Qed.

Lemma db_eta (d : db) : mkDb (rows d) (seq d) = d.
Proof. now destruct d. Qed.



(** ** Claim C6 *)



(** ** Claim C7 *)

Lemma toggle_row_twice_flag (r : row) :
  is_completed (toggle_row r) = negb (is_completed r) /\
  is_completed (toggle_row (toggle_row r)) = is_completed r.
Proof.
  unfold is_completed, toggle_row; simpl.
  destruct (completed r =? 0); auto.
Qed.

Lemma toggle_row_twice (r : row) :
  completed r = 0 \/ completed r = 1 -> toggle_row (toggle_row r) = r.
Proof.
  destruct r as [i n ds c ca du pr]; unfold toggle_row; simpl.
  intros [-> | ->]; reflexivity.
Qed.

(** C7: two calls of [toggle_completed] with the same identifier bring the
    completed flag of that task back to what it was, the first call having
    turned it round; a stored 0 or 1 is itself restored, and when every row
    holds 0 or 1 the whole store is as before. *)
Theorem toggle_completed_twice (task_id : Z) (d : db) :
  exists d1 d2,
    toggle_completed task_id (Online d) = Returns (Online d1) /\
    toggle_completed task_id (Online d1) = Returns (Online d2) /\
    (forall t, get_task_by_id task_id (Online d) = Returns (Some t) ->
       exists t1 t2,
         get_task_by_id task_id (Online d1) = Returns (Some t1) /\
         get_task_by_id task_id (Online d2) = Returns (Some t2) /\
         is_completed t1 = negb (is_completed t) /\
         is_completed t2 = is_completed t /\
         (completed t = 0 \/ completed t = 1 -> t2 = t)) /\
    ((forall t, In t (rows d) -> completed t = 0 \/ completed t = 1) -> d2 = d).
Proof.
  exists (sql_toggle task_id d), (sql_toggle task_id (sql_toggle task_id d)).
  split; [reflexivity|]. split; [reflexivity|].
  unfold get_task_by_id; cbn [get_connection bind]. unfold sql_select_id.
  assert (Hid : forall t, id (if id t =? task_id then toggle_row t else t) = id t)
    by (intros t; destruct (id t =? task_id); reflexivity).
  split.
  - intros t [= Ht].
    pose proof (find_some _ _ Ht) as [_ Hk].
    exists (toggle_row t), (toggle_row (toggle_row t)).
    unfold sql_toggle; cbn [rows].
    rewrite !(find_id_map task_id _ _ Hid), Ht. cbn [option_map].
    rewrite Hk. cbn [toggle_row id]. rewrite Hk.
    destruct (toggle_row_twice_flag t) as [H1 H2].
    repeat split; try assumption. apply toggle_row_twice.
  - intros Hall. destruct d as [l n]. unfold sql_toggle; cbn [rows seq] in *.
    f_equal. rewrite map_map. rewrite <- (map_id l) at 2.
    apply map_ext_in. intros t Ht.
    destruct (id t =? task_id) eqn:E; cbn [toggle_row id]; rewrite E; [|reflexivity].
    apply (toggle_row_twice t). auto.
Qed.

Lemma toggle_completed_twice_witness :
  exists d1 d2 t1 t2,
    toggle_completed 1 (Online milk_db) = Returns (Online d1) /\
    toggle_completed 1 (Online d1) = Returns (Online d2) /\
    get_task_by_id 1 (Online d1) = Returns (Some t1) /\
    get_task_by_id 1 (Online d2) = Returns (Some t2) /\
    is_completed t1 = true /\ t2 = milk /\ d2 = milk_db.
Proof.
  destruct (toggle_completed_twice 1 milk_db) as (d1 & d2 & H1 & H2 & Ht & Hd).
  destruct (Ht milk eq_refl) as (t1 & t2 & G1 & G2 & F1 & _ & F3).
  exists d1, d2, t1, t2. repeat split; try assumption.
  - apply F3. now left.
  - apply Hd. intros t [<- | []]. now left.
Defined.

(** ** Claim C8 *)



(** ** Claim C9 *)

Lemma perform_gone (k : Z) (c : call) (s : store) : gone k s -> gone k (perform c s).
Proof.
  intros (d & -> & Habs & Hseq). unfold perform.
  destruct c as [n ds du p now | k' n ds du p | k' | k'].
  - unfold add_task, int_. cbn [get_connection bind].
    destruct (py_int p) as [z|]; cbn [bind store_after].
    + eexists. split; [reflexivity|]. unfold sql_insert; cbn [rows seq].
      split; [|unfold next_rowid; lia].
      intros t Ht. apply in_app_or in Ht as [Ht | [<- | []]]; [now apply Habs|].
      cbn [id]. unfold next_rowid. lia.
    + exists d. auto.
  - unfold update_task, int_. cbn [get_connection bind].
    destruct (py_int p) as [z|]; cbn [bind store_after].
    + eexists. split; [reflexivity|]. unfold sql_update; cbn [rows seq].
      split; [|exact Hseq].
      intros t Ht. apply in_map_iff in Ht as (r & <- & Hr).
      destruct (id r =? k'); cbn [set_row id]; now apply Habs.
    + exists d. auto.
  - cbn [delete_task get_connection bind store_after]. eexists.
    split; [reflexivity|]. unfold sql_delete; cbn [rows seq].
    split; [|exact Hseq].
    intros t Ht. apply filter_In in Ht as [Ht _]. now apply Habs.
  - cbn [toggle_completed get_connection bind store_after]. eexists.
    split; [reflexivity|]. unfold sql_toggle; cbn [rows seq].
    split; [|exact Hseq].
    intros t Ht. apply in_map_iff in Ht as (r & <- & Hr).
    destruct (id r =? k'); cbn [toggle_row id]; now apply Habs.
Qed.

Lemma perform_all_gone (k : Z) (cs : list call) (s : store) :
  gone k s -> gone k (perform_all cs s).
Proof.
  revert s. induction cs as [|c cs IH]; intros s H; simpl; [exact H|].
  apply IH. now apply perform_gone.
Qed.

(** Every store that the program builds from the empty table keeps the
    identifiers of its rows within the counter. *)
Lemma perform_within_seq (c : call) (s : store) :
  within_seq s -> within_seq (perform c s).
Proof.
  intros (d & -> & Hle). unfold perform.
  destruct c as [n ds du p now | k' n ds du p | k' | k'].
  - unfold add_task, int_. cbn [get_connection bind].
    destruct (py_int p) as [z|]; cbn [bind store_after]; [|exists d; auto].
    eexists. split; [reflexivity|]. unfold sql_insert; cbn [rows seq].
    intros t Ht. apply in_app_or in Ht as [Ht | [<- | []]]; cbn [id]; [|lia].
    apply Hle in Ht. unfold next_rowid. lia.
  - unfold update_task, int_. cbn [get_connection bind].
    destruct (py_int p) as [z|]; cbn [bind store_after]; [|exists d; auto].
    eexists. split; [reflexivity|]. unfold sql_update; cbn [rows seq].
    intros t Ht. apply in_map_iff in Ht as (r & <- & Hr).
    destruct (id r =? k'); cbn [set_row id]; now apply Hle.
  - cbn [delete_task get_connection bind store_after]. eexists.
    split; [reflexivity|]. unfold sql_delete; cbn [rows seq].
    intros t Ht. apply filter_In in Ht as [Ht _]. now apply Hle.
  - cbn [toggle_completed get_connection bind store_after]. eexists.
    split; [reflexivity|]. unfold sql_toggle; cbn [rows seq].
    intros t Ht. apply in_map_iff in Ht as (r & <- & Hr).
    destruct (id r =? k'); cbn [toggle_row id]; now apply Hle.
Qed.

Lemma perform_all_within_seq (cs : list call) :
  within_seq (perform_all cs (Online empty_db)).
Proof.
  assert (H : within_seq (Online empty_db)).
  { exists empty_db. split; [reflexivity|]. intros t []. }
  revert H. generalize (Online empty_db).
  induction cs as [|c cs IH]; intros s H; simpl; [exact H|].
  apply IH. now apply perform_within_seq.
Qed.

Lemma get_tasks_In (filter_text : string) (o : order_clause) (d : db) :
  exists l, get_tasks filter_text o (Online d) = Returns l /\
            forall t, In t l -> In t (rows d).
Proof.
  unfold get_tasks; cbn [get_connection bind].
  destruct (truthy (Text filter_text)); eexists; (split; [reflexivity|]);
    intros t Ht; unfold sql_select_like, sql_select_all in Ht;
    apply order_by_In in Ht; [|exact Ht].
  now apply filter_In in Ht as [Ht _].
Qed.

(** C9: after [delete_task] no row has the given id: [get_task_by_id]
    returns None and no result of [get_tasks], whatever the filter and the
    order, holds a row with that id; the rows with another id are all kept;
    when no row had the id the store is the same.  When the id is one that
    AUTOINCREMENT has handed out, this stays so after any later calls of
    the functions that write to the store. *)
Theorem delete_task_removes (task_id : Z) (d : db) :
  exists d',
    delete_task task_id (Online d) = Returns (Online d') /\
    get_task_by_id task_id (Online d') = Returns None /\
    (forall filter_text o, exists l,
       get_tasks filter_text o (Online d') = Returns l /\
       forall t, In t l -> id t <> task_id) /\
    (forall t, In t (rows d') <-> In t (rows d) /\ id t <> task_id) /\
    ((forall t, In t (rows d) -> id t <> task_id) -> d' = d) /\
    (task_id <= seq d ->
     forall later filter_text o, exists l,
       get_task_by_id task_id (perform_all later (Online d')) = Returns None /\
       get_tasks filter_text o (perform_all later (Online d')) = Returns l /\
       forall t, In t l -> id t <> task_id).
Proof.
  exists (sql_delete task_id d). split; [reflexivity|].
  assert (Hin : forall t, In t (rows (sql_delete task_id d)) <->
                          In t (rows d) /\ id t <> task_id).
  { intros t. unfold sql_delete; cbn [rows]. rewrite filter_In.
    destruct (Z.eqb_spec (id t) task_id); simpl; intuition congruence. }
  assert (Hget : forall d0, (forall t, In t (rows d0) -> id t <> task_id) ->
                 get_task_by_id task_id (Online d0) = Returns None).
  { intros d0 H0. unfold get_task_by_id; cbn [get_connection bind]. f_equal.
    unfold sql_select_id.
    destruct (find _ _) as [t|] eqn:E; [|reflexivity].
    apply find_some in E as [Ht Hk]. apply Z.eqb_eq in Hk.
    now apply H0 in Ht. }
  split; [|split; [|split; [|split]]].
  - apply Hget. intros t Ht. now apply Hin in Ht.
  - intros filter_text o.
    destruct (get_tasks_In filter_text o (sql_delete task_id d)) as (l & Hl & Hsub).
    exists l. split; [exact Hl|]. intros t Ht. now apply Hsub, Hin in Ht.
  - exact Hin.
  - intros Habs. destruct d as [l n]; unfold sql_delete; cbn [rows seq] in *.
    f_equal. now apply filter_id_absent.
  - intros Hseq later filter_text o.
    assert (Hgone : gone task_id (Online (sql_delete task_id d))).
    { eexists. split; [reflexivity|]. split; [|exact Hseq].
      intros t Ht. now apply Hin in Ht. }
    apply (perform_all_gone _ later) in Hgone as (d2 & -> & Habs & _).
    destruct (get_tasks_In filter_text o d2) as (l & Hl & Hsub).
    exists l. split; [now apply Hget|]. split; [exact Hl|].
    intros t Ht. now apply Habs, Hsub.
Qed.

Lemma delete_task_removes_witness :
  exists d',
    delete_task 1 (Online milk_db) = Returns (Online d') /\
    get_task_by_id 1 (Online d') = Returns None /\
    delete_task 7 (Online milk_db) = Returns (Online milk_db) /\
    get_task_by_id 1
      (perform_all [call_add_task "Call Ann" None None (Int 2) noon] (Online d'))
      = Returns None.
Proof.
  destruct (delete_task_removes 1 milk_db) as (d' & H1 & H2 & _ & _ & _ & H6).
  exists d'. split; [exact H1|]. split; [exact H2|]. split.
  - destruct (delete_task_removes 7 milk_db) as (d'' & G1 & _ & _ & _ & G5 & _).
    rewrite G1. do 2 f_equal. apply G5. intros t [<- | []]. discriminate.
  - destruct (H6 ltac:(simpl; lia) [call_add_task "Call Ann" None None (Int 2) noon]
                EmptyString default_order) as (l & G & _).
    exact G.
Defined.

(** ** Claim C10 *)



(** ** The scenario of the specification *)

Example scenario :
  exists s1 s2 s3,
    add_task "Buy milk" (Some EmptyString) (Some "2025-01-01"%string) (Int 1) noon
      (Online empty_db) = Returns s1 /\
    get_tasks "" default_order s1 =
      Returns [mkRow 1 "Buy milk" (Some EmptyString) 0 "2025-03-04T12:00:00"
                     (Some "2025-01-01"%string) (Int 1)] /\
    toggle_completed 1 s1 = Returns s2 /\
    option_map is_completed
      match get_task_by_id 1 s2 with Returns t => t | Raises _ => None end = Some true /\
    delete_task 1 s2 = Returns s3 /\
    get_task_by_id 1 s3 = Returns None.
Proof.
  do 3 eexists. repeat split.
Qed.

(** * Further properties of the persistence layer *)

(** ** The primary key *)

Lemma map_id_cond (k : Z) (f : row -> row) (l : list row) :
  (forall t, id (f t) = id t) ->
  map id (map (fun t => if id t =? k then f t else t) l) = map id l.
Proof.
  intros Hf. rewrite map_map. apply map_ext. intros t.
  destruct (id t =? k); [apply Hf | reflexivity].
Qed.

Lemma filter_ids_NoDup (keep : row -> bool) (l : list row) :
  NoDup (map id l) -> NoDup (map id (filter keep l)).
Proof.
  intros H. induction l as [|x l IH]; simpl in *; [constructor|].
  inversion H as [|? ? Hx Hl]; subst. destruct (keep x); simpl; auto.
  constructor; auto. intros Hin. apply Hx.
  apply in_map_iff in Hin as (y & Hy & Hin). apply in_map_iff.
  exists y. split; [exact Hy|]. now apply filter_In in Hin as [Hin _].
Qed.

Lemma max_rowid_nonneg (l : list row) : 0 <= max_rowid l.
Proof. induction l as [|x l IH]; simpl; lia. Qed.

Lemma perform_primary_key (c : call) (s : store) :
  primary_key s -> primary_key (perform c s).
Proof.
  intros (d & -> & Hnd & Hr). unfold perform.
  destruct c as [n ds du p now | k n ds du p | k | k].
  - unfold add_task, int_. cbn [get_connection bind].
    destruct (py_int p) as [z|]; cbn [bind store_after]; [|exists d; auto].
    eexists. split; [reflexivity|]. unfold sql_insert; cbn [rows seq].
    pose proof (max_rowid_nonneg (rows d)) as Hm. split.
    + rewrite map_app. cbn [map id].
      apply NoDup_app; [exact Hnd | repeat constructor; auto using in_nil |].
      intros i Hi [<- | []]. apply in_map_iff in Hi as (t & Ht & Hin).
      apply next_rowid_fresh in Hin. lia.
    + intros t Ht. apply in_app_or in Ht as [Ht | [<- | []]]; cbn [id].
      * apply Hr in Ht. unfold next_rowid. lia.
      * unfold next_rowid. lia.
  - unfold update_task, int_. cbn [get_connection bind].
    destruct (py_int p) as [z|]; cbn [bind store_after]; [|exists d; auto].
    eexists. split; [reflexivity|]. unfold sql_update; cbn [rows seq]. split.
    + now rewrite map_id_cond.
    + intros t Ht. apply in_map_iff in Ht as (r & <- & Hin).
      destruct (id r =? k); cbn [set_row id]; now apply Hr.
  - cbn [delete_task get_connection bind store_after]. eexists.
    split; [reflexivity|]. unfold sql_delete; cbn [rows seq]. split.
    + now apply filter_ids_NoDup.
    + intros t Ht. apply filter_In in Ht as [Ht _]. now apply Hr.
  - cbn [toggle_completed get_connection bind store_after]. eexists.
    split; [reflexivity|]. unfold sql_toggle; cbn [rows seq]. split.
    + now rewrite map_id_cond.
    + intros t Ht. apply in_map_iff in Ht as (r & <- & Hin).
      destruct (id r =? k); cbn [toggle_row id]; now apply Hr.
Qed.

Lemma primary_key_empty : primary_key (Online empty_db).
Proof.
  exists empty_db. split; [reflexivity|]. split; [constructor | intros t []].
Qed.

(** X1: whatever sequence of add, update, delete and toggle calls is run on
    the empty table, the identifiers of the rows stay pairwise different,
    positive and within the AUTOINCREMENT counter. *)
Theorem primary_key_kept (calls : list call) :
  primary_key (perform_all calls (Online empty_db)).
Proof.
  generalize primary_key_empty. generalize (Online empty_db).
  induction calls as [|c cs IH]; intros s H; simpl; [exact H|].
  apply IH. now apply perform_primary_key.
Qed.

(** ** Looking a task up *)

Lemma find_id_unique (k : Z) (l : list row) (t : row) :
  NoDup (map id l) -> In t l -> id t = k ->
  find (fun r => id r =? k) l = Some t.
Proof.
  induction l as [|x l IH]; simpl; intros Hnd Hin Hk; [contradiction|].
  inversion Hnd as [|? ? Hx Hl]; subst.
  destruct Hin as [-> | Hin].
  - now rewrite Z.eqb_refl.
  - destruct (Z.eqb_spec (id x) (id t)) as [E|_]; [|now apply IH].
    exfalso. apply Hx. rewrite E. now apply in_map.
Qed.

(** X2: [get_task_by_id] returns a row of the table that has the given id,
    returns None exactly when no row has it, and, the ids being pairwise
    different, returns every row of the table under its id. *)
Theorem get_task_by_id_spec (task_id : Z) (d : db) :
  (forall t, get_task_by_id task_id (Online d) = Returns (Some t) ->
             In t (rows d) /\ id t = task_id) /\
  (get_task_by_id task_id (Online d) = Returns None <->
   forall t, In t (rows d) -> id t <> task_id) /\
  (NoDup (map id (rows d)) ->
   forall t, In t (rows d) -> id t = task_id ->
             get_task_by_id task_id (Online d) = Returns (Some t)).
Proof.
  unfold get_task_by_id; cbn [get_connection bind]. unfold sql_select_id.
  split; [|split].
  - intros t [= H]. apply find_some in H as [Hin Hk].
    split; [exact Hin | now apply Z.eqb_eq].
  - split.
    + intros [= H] t Hin Hk.
      pose proof (find_none _ _ H t Hin) as Hf. cbv beta in Hf.
      rewrite Hk, Z.eqb_refl in Hf. discriminate.
    + intros H. f_equal. destruct (find _ _) as [t|] eqn:E; [|reflexivity].
      apply find_some in E as [Hin Hk]. apply Z.eqb_eq in Hk.
      now apply H in Hin.
  - intros Hnd t Hin Hk. f_equal. now apply find_id_unique.
Qed.

Lemma get_task_by_id_spec_witness :
  get_task_by_id 1 (Online milk_db) = Returns (Some milk) /\
  get_task_by_id 2 (Online milk_db) = Returns None.
Proof.
  destruct (get_task_by_id_spec 1 milk_db) as (_ & _ & H).
  destruct (get_task_by_id_spec 2 milk_db) as (_ & H2 & _).
  split.
  - apply H; [repeat constructor; auto using in_nil | now left | reflexivity].
  - apply H2. intros t [<- | []]. discriminate.
Defined.

(** ** Updating and looking up *)





(** ** What toggling leaves alone *)

Lemma toggle_row_keys (o : order_clause) (a b : row) (k : Z) :
  precedes o (if id a =? k then toggle_row a else a)
             (if id b =? k then toggle_row b else b) = precedes o a b.
Proof.
  destruct (id a =? k), (id b =? k); destruct o; reflexivity.
Qed.

Lemma insert_sorted_map (o : order_clause) (g : row -> row) (x : row) (l : list row) :
  (forall a b, precedes o (g a) (g b) = precedes o a b) ->
  insert_sorted o (g x) (map g l) = map g (insert_sorted o x l).
Proof.
  intros Hg. induction l as [|y l IH]; simpl; [reflexivity|].
  rewrite Hg. destruct (precedes o x y); simpl; [reflexivity | now rewrite IH].
Qed.

Lemma order_by_map (o : order_clause) (g : row -> row) (l : list row) :
  (forall a b, precedes o (g a) (g b) = precedes o a b) ->
  order_by o (map g l) = map g (order_by o l).
Proof.
  intros Hg. induction l as [|x l IH]; simpl; [reflexivity|].
  now rewrite IH, insert_sorted_map.
Qed.

Lemma filter_map_same {A : Type} (p : A -> bool) (g : A -> A) (l : list A) :
  (forall x, p (g x) = p x) -> filter p (map g l) = map g (filter p l).
Proof.
  intros Hg. induction l as [|x l IH]; simpl; [reflexivity|].
  rewrite Hg. destruct (p x); simpl; now rewrite IH.
Qed.

(** X4: [toggle_completed] writes nothing but the completed flag of the
    rows with the given id, which becomes 0 or 1: every row keeps its place,
    id, name, description, created_at, due date and priority, rows with
    another id are unchanged, and every listing holds the same tasks as
    before, in the same places, with only that flag turned. *)
Theorem toggle_completed_frame (task_id : Z) (d : db) :
  exists d',
    toggle_completed task_id (Online d) = Returns (Online d') /\
    seq d' = seq d /\
    (forall i t, nth_error (rows d) i = Some t ->
       exists t',
         nth_error (rows d') i = Some t' /\
         t' = mkRow (id t) (name t) (description t) (completed t')
                    (created_at t) (due_date t) (priority t) /\
         (id t <> task_id -> t' = t) /\
         (id t = task_id -> completed t' = if completed t =? 0 then 1 else 0)) /\
    (forall filter_text o l,
       get_tasks filter_text o (Online d) = Returns l ->
       get_tasks filter_text o (Online d') =
         Returns (map (fun t => if id t =? task_id then toggle_row t else t) l)).
Proof.
  exists (sql_toggle task_id d). split; [reflexivity|]. split; [reflexivity|].
  unfold sql_toggle; cbn [rows seq]. split.
  - intros i t Ht. eexists. split; [rewrite nth_error_map, Ht; reflexivity|].
    destruct (Z.eqb_spec (id t) task_id) as [E|E]; cbn [toggle_row completed].
    + split; [reflexivity|]. split; [contradiction | reflexivity].
    + split; [now destruct t|]. split; [reflexivity | contradiction].
  - intros filter_text o l. unfold get_tasks; cbn [get_connection bind].
    destruct (truthy (Text filter_text)); intros [= <-]; f_equal;
      unfold sql_select_like, sql_select_all; cbn [rows].
    + rewrite filter_map_same.
      * apply order_by_map. intros a b. apply toggle_row_keys.
      * intros x. destruct (id x =? task_id); reflexivity.
    + apply order_by_map. intros a b. apply toggle_row_keys.
Qed.

Lemma toggle_completed_frame_witness :
  exists d',
    toggle_completed 1 (Online milk_db) = Returns (Online d') /\
    get_tasks "milk" default_order (Online d') = Returns [toggle_row milk].
Proof.
  destruct (toggle_completed_frame 1 milk_db) as (d' & H1 & _ & _ & H4).
  exists d'. split; [exact H1|].
  apply (H4 "milk"%string default_order [milk]). reflexivity.
Defined.

(** ** Deleting one task *)

(** X5: when the ids are pairwise different and the task is in the table,
    [delete_task] takes out exactly that row; the rows before and after it
    stay as they are and in their order, and the AUTOINCREMENT counter does
    not move. *)
Theorem delete_task_removes_one (task_id : Z) (t : row) (d : db) :
  NoDup (map id (rows d)) -> In t (rows d) -> id t = task_id ->
  exists d' before after,
    delete_task task_id (Online d) = Returns (Online d') /\
    rows d = before ++ t :: after /\
    rows d' = before ++ after /\
    seq d' = seq d.
Proof.
  intros Hnd Hin Hk. apply in_split in Hin as (l1 & l2 & Hl).
  exists (sql_delete task_id d), l1, l2. split; [reflexivity|].
  split; [exact Hl|]. split; [|reflexivity].
  unfold sql_delete; cbn [rows]. rewrite Hl in *.
  rewrite map_app in Hnd. cbn [map] in Hnd.
  pose proof (NoDup_remove_2 _ _ _ Hnd) as Hfresh.
  rewrite filter_app. cbn [filter]. rewrite Hk, Z.eqb_refl. cbn [negb].
  rewrite !filter_id_absent; [reflexivity | |].
  - intros x Hx E. apply Hfresh. apply in_or_app. right.
    rewrite Hk, <- E. now apply in_map.
  - intros x Hx E. apply Hfresh. apply in_or_app. left.
    rewrite Hk, <- E. now apply in_map.
Qed.

Lemma delete_task_removes_one_witness :
  exists d', delete_task 1 (Online milk_db) = Returns (Online d') /\ rows d' = [].
Proof.
  destruct (delete_task_removes_one 1 milk milk_db) as (d' & l1 & l2 & H1 & H2 & H3 & _).
  - repeat constructor. auto using in_nil.
  - now left.
  - reflexivity.
  - exists d'. split; [exact H1|]. rewrite H3.
    destruct l1 as [|x l1]; [|destruct l1; discriminate].
    injection H2 as <-. reflexivity.
Defined.

(** ** The three orders and the unknown key *)

Lemma in_order_recency (a b : row) : in_order created_at_DESC a b <-> recency a b.
Proof.
  unfold in_order, precedes, recency; simpl.
  rewrite (String.compare_antisym (created_at a) (created_at b)).
  destruct (String.compare (created_at b) (created_at a)); simpl;
    split; congruence.
Qed.

Lemma in_order_priority_descending (a b : row) :
  in_order priority_DESC a b <-> priority_descending a b.
Proof.
  unfold in_order, precedes, priority_descending; simpl.
  rewrite (value_compare_antisym (priority a) (priority b)).
  destruct (value_compare (priority b) (priority a)); simpl; split; congruence.
Qed.

Lemma get_tasks_order_by (filter_text : string) (o : order_clause) (d : db) :
  exists l,
    get_tasks filter_text o (Online d) = Returns (order_by o l) /\
    l = filter (fun r => negb (truthy (Text filter_text)) ||
                         name_or_description (sql_like ("%" ++ filter_text ++ "%")) r)
               (rows d).
Proof.
  unfold get_tasks; cbn [get_connection bind].
  destruct (truthy (Text filter_text)); eexists; split; try reflexivity.
  cbn [negb orb]. now rewrite filter_true.
Qed.

Lemma order_by_clause_cases (order_key : string) :
  order_by_clause order_key =
  if String.eqb order_key "created_at" then created_at_DESC
  else if String.eqb order_key "priority" then priority_DESC
  else priority_DESC_created_at_DESC.
Proof.
  unfold order_by_clause, ORDER_MAP, dict_get.
  rewrite (String.eqb_sym "created_at" order_key), (String.eqb_sym "priority" order_key).
  destruct (String.eqb_spec "priority,created_at" order_key) as [<-|_];
    [reflexivity|].
  destruct (String.eqb order_key "created_at"); [reflexivity|].
  destruct (String.eqb order_key "priority"); reflexivity.
Qed.

(** X6: whatever text the order menu hands over, the listing is sorted:
    newest first for "created_at", highest priority value first for
    "priority", and for every other key, known or not, by priority and then
    by recency. *)
Theorem get_tasks_sorted_by_key (order_key filter_text : string) (d : db) :
  exists l,
    get_tasks filter_text (order_by_clause order_key) (Online d) = Returns l /\
    StronglySorted (key_order order_key) l.
Proof.
  destruct (get_tasks_order_by filter_text (order_by_clause order_key) d)
    as (l & Hl & _).
  eexists. split; [exact Hl|].
  rewrite order_by_clause_cases. unfold key_order.
  destruct (String.eqb order_key "created_at").
  - eapply StronglySorted_iff; [apply in_order_recency | apply order_by_sorted].
  - destruct (String.eqb order_key "priority").
    + eapply StronglySorted_iff;
        [apply in_order_priority_descending | apply order_by_sorted].
    + eapply StronglySorted_iff;
        [apply precedes_priority_then_recency | apply order_by_sorted].
Qed.

(** ** What a filter and an order can change *)

Lemma filter_split_perm {A : Type} (p : A -> bool) (l : list A) :
  Permutation l (filter p l ++ filter (fun x => negb (p x)) l).
Proof.
  induction l as [|x l IH]; simpl; [constructor|].
  destruct (p x); simpl.
  - now constructor.
  - now apply Permutation_cons_app.
Qed.

(** X7: the order clause only rearranges a listing: two listings with the
    same filter text hold the same tasks the same number of times; and a
    filter only hides tasks: the listing without filter is the filtered
    listing together with the hidden tasks. *)
Theorem listing_order_and_filter (filter_text : string) (o o' : order_clause) (d : db) :
  exists l l' every hidden,
    get_tasks filter_text o (Online d) = Returns l /\
    get_tasks filter_text o' (Online d) = Returns l' /\
    get_tasks "" o (Online d) = Returns every /\
    Permutation l l' /\
    Permutation every (l ++ hidden) /\
    Permutation every (rows d).
Proof.
  destruct (get_tasks_order_by filter_text o d) as (m & Hl & Hm).
  destruct (get_tasks_order_by filter_text o' d) as (m' & Hl' & Hm').
  exists (order_by o m), (order_by o' m'), (order_by o (rows d)).
  exists (filter (fun r => negb (negb (truthy (Text filter_text)) ||
                                 name_or_description
                                   (sql_like ("%" ++ filter_text ++ "%")) r)) (rows d)).
  split; [exact Hl|]. split; [exact Hl'|]. split; [reflexivity|].
  rewrite !order_by_perm. subst m m'.
  split; [reflexivity|]. split; [|reflexivity].
  apply filter_split_perm.
Qed.

(** ** A filter finds what contains it *)







(** * Text and numbers *)

Lemma rstrip_cons (c : ascii) (s : string) :
  rstrip (String c s) =
  match rstrip s with
  | EmptyString => if is_space c then EmptyString else String c EmptyString
  | r => String c r
  end.
Proof. reflexivity. Qed.

Lemma rstrip_idem (s : string) : rstrip (rstrip s) = rstrip s.
Proof.
  induction s as [|c s IH]; [reflexivity|].
  rewrite rstrip_cons. destruct (rstrip s) as [|e r] eqn:E.
  - destruct (is_space c) eqn:Ec; [reflexivity|].
    rewrite rstrip_cons. simpl. now rewrite Ec.
  - rewrite rstrip_cons, IH. reflexivity.
Qed.

Lemma rstrip_head (c : ascii) (s : string) :
  is_space c = false -> exists r, rstrip (String c s) = String c r.
Proof.
  intros Hc. simpl. destruct (rstrip s); [rewrite Hc|]; eauto.
Qed.

Lemma lstrip_head (s : string) :
  lstrip s = EmptyString \/ exists c r, lstrip s = String c r /\ is_space c = false.
Proof.
  induction s as [|c s IH]; simpl; [now left|].
  destruct (is_space c) eqn:Ec; [exact IH|]. right. eauto.
Qed.

Lemma strip_idem (s : string) : strip (strip s) = strip s.
Proof.
  unfold strip. destruct (lstrip_head s) as [H | (c & r & H & Hc)]; rewrite H.
  - reflexivity.
  - destruct (rstrip_head c r Hc) as (r' & Hr). rewrite Hr.
    cbn [lstrip]. rewrite Hc, <- Hr. apply rstrip_idem.
Qed.











(** * Reading the export back *)














(** * The window *)

(** ** Pulses leave the window as it is, colours and timers apart *)

Lemma uncolored_configure (w : nat) (color : string) (a : app) :
  map uncolored (task_card_widgets (configure_fg w color a)) =
  map uncolored (task_card_widgets a).
Proof.
  unfold configure_fg. cbn [task_card_widgets set_task_card_widgets].
  rewrite map_map. apply map_ext. intros c.
  destruct (Nat.eqb (widget c) w); reflexivity.
Qed.

Lemma on_frame_core (w : nat) (binding : card_widget -> card_widget) (a : app) :
  (forall c, uncolored (binding c) = uncolored c) ->
  core (snd (on_frame w binding a)) = core a.
Proof.
  intros H. unfold on_frame, update_ui, core. cbn. rewrite map_map.
  do 2 f_equal. apply map_ext. intros c.
  destruct (Nat.eqb (widget c) w); [apply H | reflexivity].
Qed.

Lemma step_core (p : pulse) (a : app) :
  fst (step p a) = Returns tt /\ core (snd (step p a)) = core a.
Proof.
  unfold step, update_ui, after. cbn [fst snd]. split; [reflexivity|].
  destruct (S (next_step p) <=? steps)%nat; unfold core; cbn -[configure_fg];
    now rewrite uncolored_configure.
Qed.

Lemma animate_selection_core (task_id : Z) (a : app) :
  fst (animate_selection task_id a) = Returns tt /\
  core (snd (animate_selection task_id a)) = core a.
Proof.
  unfold animate_selection, ui_bind, update_ui, gets, ui_ret. cbn [fst snd].
  match goal with
  | |- context [find ?f (task_card_widgets ?b)] =>
      destruct (find f (task_card_widgets b)) as [c|];
      [ destruct (step_core
                    (mkPulse (widget c) (fg_color c)
                       (if appearance_dark b then "#163144" else "#a8d1ff")%string 0) b)
          as [H1 H2]; rewrite H1, H2 |];
      (split; [reflexivity|]); destruct (pulse_after_id a); reflexivity
  end.
Qed.

Lemma timer_fires_core (i : nat) (a : app) :
  fst (timer_fires i a) = Returns tt /\ core (snd (timer_fires i a)) = core a.
Proof.
  unfold timer_fires, ui_bind, update_ui, gets, ui_ret. cbn [fst snd].
  destruct (find _ (timers a)) as [[j p]|]; [|split; reflexivity].
  cbn [fst snd]. destruct (step_core p (after_cancel i a)) as [H1 H2].
  rewrite H1, H2. split; reflexivity.
Qed.

(** ** The handlers, colours and timers apart *)

Lemma stored_task_online (task_id : Z) (a : app) (d : db) :
  db_file a = Online d -> stored_task task_id a = sql_select_id task_id d.
Proof. intros H. unfold stored_task. now rewrite H. Qed.

Lemma on_task_selected_core (task_id : Z) (a : app) :
  online a ->
  fst (on_task_selected task_id a) = Returns tt /\
  core (snd (on_task_selected task_id a)) = core (select task_id a).
Proof.
  intros [d Hd]. unfold select. rewrite (stored_task_online _ _ _ Hd).
  unfold on_task_selected, ui_bind, query, update_ui, ui_ret. rewrite Hd.
  cbn [get_task_by_id get_connection bind fst snd].
  destruct (sql_select_id task_id d) as [t|]; [|split; reflexivity].
  match goal with
  | |- context [animate_selection task_id ?b] =>
      destruct (animate_selection_core task_id b) as [H1 H2]; rewrite H1, H2
  end.
  split; reflexivity.
Qed.

Ltac core_congruence H :=
  unfold core in *; cbn; injection H; intros;
  repeat match goal with
         | E : ?x = ?y |- _ => rewrite E; clear E
         end;
  reflexivity.

(** The pure steps depend on the window only through its [core]. *)
Lemma core_db_file (a b : app) : core a = core b -> db_file a = db_file b.
Proof. intros H. unfold core in H. now injection H. Qed.

Lemma core_select (task_id : Z) (a b : app) :
  core a = core b -> core (select task_id a) = core (select task_id b).
Proof.
  intros H. pose proof (core_db_file _ _ H) as Hd.
  unfold select, stored_task. rewrite Hd.
  destruct (get_task_by_id task_id (db_file b)) as [[t|]|]; try exact H.
  clear Hd. core_congruence H.
Qed.

Lemma core_deselect (a b : app) : core a = core b -> core (deselect a) = core (deselect b).
Proof. intros H. unfold deselect. core_congruence H. Qed.

Lemma core_reshown (a b : app) : core a = core b -> core (reshown a) = core (reshown b).
Proof.
  intros H. pose proof (core_db_file _ _ H) as Hd.
  assert (Hs : selected_truthy a = selected_truthy b).
  { unfold selected_truthy. replace (selected_task_id a) with (selected_task_id b);
      [reflexivity|]. unfold core in H. now injection H. }
  unfold reshown. rewrite Hs. destruct (selected_truthy b) as [k|]; [|exact H].
  unfold stored_task. rewrite Hd.
  destruct (get_task_by_id k (db_file b)) as [[t|]|] eqn:E.
  - now apply core_select.
  - now apply core_deselect.
  - now apply core_deselect.
Qed.

Lemma refresh_tasks_core (a : app) :
  online a ->
  fst (refresh_tasks a) = Returns tt /\
  core (snd (refresh_tasks a)) = core (refreshed a).
Proof.
  intros [d Hd]. unfold refreshed, listed, listing.
  unfold refresh_tasks, ui_bind, query, update_ui, gets, ui_ret.
  cbn [fst snd db_file set_task_card_widgets search_var order_var].
  rewrite Hd.
  destruct (get_tasks_order_by (strip (search_var a)) (order_by_clause (order_var a)) d)
    as (l & Hl & _).
  rewrite Hl.
  cbn [fst snd db_file set_task_card_widgets set_next_widget appearance_dark next_widget].
  set (tasks := order_by (order_by_clause (order_var a)) l).
  set (b := set_next_widget _ _).
  set (b' := set_task_card_widgets _ a).
  assert (Hb : core b = core b') by reflexivity.
  assert (Hs : selected_truthy b = selected_truthy b') by reflexivity.
  rewrite <- (core_reshown _ _ Hb). unfold reshown. rewrite Hs.
  destruct (selected_truthy b') as [k|]; [|split; reflexivity].
  assert (Hon : db_file b = Online d) by exact Hd.
  rewrite (stored_task_online _ _ _ Hon). rewrite Hon.
  cbn [get_task_by_id get_connection bind fst snd].
  destruct (sql_select_id k d) as [t|].
  - apply on_task_selected_core. now exists d.
  - split; reflexivity.
Qed.

Ltac ui_unfold :=
  unfold on_card, card_of, set_form_field, set_details_field, show, told, written;
  unfold ui_bind, gets, update_ui, query, commit, ui_ret;
  cbn [fst snd db_file disk appearance_dark dark_mode_var window search_var order_var
       form details selected_task_id task_card_widgets next_widget pulse_after_id
       timers next_after dialogs
       set_db_file set_disk set_appearance_dark set_dark_mode_var set_window
       set_search_var set_order_var set_form set_details set_selected_task_id
       set_task_card_widgets set_next_widget set_pulse_after_id set_timers
       set_next_after set_dialogs].

Ltac show_online :=
  eexists; ui_unfold; first [reflexivity | eassumption].

Ltac by_refresh :=
  match goal with
  | |- core (snd (refresh_tasks ?b)) = _ =>
      let H := fresh "Hon" in
      assert (H : online b) by show_online;
      rewrite (proj2 (refresh_tasks_core b H)); reflexivity
  end.

Lemma online_add_task (nm : string) (ds du : option string) (p : Z) (now : datetime)
    (d : db) :
  add_task nm ds du (Int p) now (Online d) =
  Returns (Online (sql_insert nm ds (isoformat_seconds now) (or_None du) p d)).
Proof. reflexivity. Qed.

Lemma online_update_task (k : Z) (nm : string) (ds du : option string) (p : Z) (d : db) :
  update_task k nm ds du (Int p) (Online d) =
  Returns (Online (sql_update k nm ds (or_None du) p d)).
Proof. reflexivity. Qed.

(** Every handler does to the window, colours and timers apart, what
    [effect] says. *)
Lemma handle_core (e : event) (a : app) :
  online a -> core (handle e a) = core (effect e a).
Proof.
  intros [d Hd]. destruct e; try reflexivity; unfold handle, handler, effect.
  - (* Add Task *)
    unfold add_task_from_form. ui_unfold.
    destruct (String.eqb (strip (entry_name (form a))) ""); [reflexivity|].
    rewrite Hd, online_add_task. cbn [store_after]. ui_unfold. by_refresh.
  - (* search *) ui_unfold. by_refresh.
  - (* order *) ui_unfold. by_refresh.
  - (* Refresh *) by_refresh.
  - (* theme switch *)
    unfold toggle_dark_mode, apply_theme. ui_unfold.
    destruct (dark_mode_var a); cbn [negb]; ui_unfold; by_refresh.
  - (* Save *)
    unfold save_selected_task. ui_unfold.
    destruct (selected_truthy a) as [k|]; [|reflexivity].
    destruct (String.eqb (strip (details_name (details a))) ""); [reflexivity|].
    rewrite Hd, online_update_task. cbn [store_after]. unfold clear_details, deselect.
    ui_unfold. by_refresh.
  - (* Delete *)
    unfold delete_selected_task. ui_unfold.
    destruct (selected_truthy a) as [k|]; [|reflexivity].
    destruct answer; [|reflexivity].
    unfold clear_details, deselect. ui_unfold. rewrite !Hd.
    cbn [delete_task get_connection bind store_after]. ui_unfold. by_refresh.
  - (* View *)
    ui_unfold. destruct (find _ (task_card_widgets a)) as [c|]; [|reflexivity].
    apply on_task_selected_core. now exists d.
  - (* Mark Done *)
    ui_unfold. destruct (find _ (task_card_widgets a)) as [c|]; [|reflexivity].
    unfold toggle_complete_and_reload. ui_unfold.
    unfold is_selected, clear_details, deselect. ui_unfold. rewrite !Hd.
    cbn [toggle_completed get_connection bind store_after]. ui_unfold.
    destruct (selected_task_id a) as [k|]; [destruct (k =? card_task c)|];
      unfold clear_details, deselect; ui_unfold; by_refresh.
  - (* Delete on a card *)
    ui_unfold. destruct (find _ (task_card_widgets a)) as [c|]; [|reflexivity].
    unfold delete_and_reload. ui_unfold.
    destruct answer; [|reflexivity].
    unfold is_selected, clear_details, deselect. ui_unfold. rewrite !Hd.
    cbn [delete_task get_connection bind store_after]. ui_unfold.
    destruct (selected_task_id a) as [k|]; [destruct (k =? card_task c)|];
      unfold clear_details, deselect; ui_unfold; by_refresh.
  - (* timer *) apply timer_fires_core.
  - (* the mouse enters a card *) apply on_frame_core. reflexivity.
  - (* the mouse leaves a card *) apply on_frame_core. reflexivity.
Qed.

(** ** What the pure steps leave alone *)

Lemma same_setting_refl (a : app) : same_setting a a.
Proof. repeat split. Qed.

Lemma select_setting (k : Z) (a : app) : same_setting (select k a) a.
Proof. unfold select. destruct (stored_task k a); repeat split. Qed.

Lemma deselect_setting (a : app) : same_setting (deselect a) a.
Proof. repeat split. Qed.

Lemma reshown_setting (a : app) : same_setting (reshown a) a.
Proof.
  unfold reshown. destruct (selected_truthy a) as [k|]; [|apply same_setting_refl].
  destruct (stored_task k a); [apply select_setting | apply deselect_setting].
Qed.




Lemma refreshed_db_file (a : app) : db_file (refreshed a) = db_file a.
Proof.
  unfold refreshed. destruct (reshown_setting (listed a)) as (E1 & _).
  rewrite E1. unfold listed. now destruct (listing a).
Qed.


Lemma refreshed_theme (a : app) :
  appearance_dark (refreshed a) = appearance_dark a /\
  dark_mode_var (refreshed a) = dark_mode_var a /\
  window (refreshed a) = window a.
Proof.
  unfold refreshed.
  destruct (reshown_setting (listed a)) as (_ & _ & E3 & E4 & E5 & _).
  rewrite E3, E4, E5. unfold listed. now destruct (listing a).
Qed.

(** The selection and the details panel after a refresh. *)
Lemma refreshed_selection (a : app) :
  selected_task_id (refreshed a) = selected_task_id (reshown a) /\
  details (refreshed a) = details (reshown a).
Proof.
  assert (H : forall cards, reshown (set_task_card_widgets cards a)
                = set_task_card_widgets cards (reshown a)).
  { intros cards. unfold reshown, selected_truthy, select, deselect, stored_task.
    cbn [selected_task_id set_task_card_widgets db_file].
    destruct (selected_task_id a) as [k|]; [|reflexivity].
    destruct (k =? 0); [reflexivity|].
    destruct (get_task_by_id k (db_file a)) as [[t|]|]; reflexivity. }
  unfold refreshed, listed. destruct (listing a); rewrite H; split; reflexivity.
Qed.

(** ** What the handlers write *)

Lemma effect_store (e : event) (a : app) :
  db_file (effect e a) = db_file a \/
  exists c, ui_call a c /\ db_file (effect e a) = perform c (db_file a).
Proof.
  destruct e; unfold effect; try (left; reflexivity).
  - destruct (String.eqb_spec (strip (entry_name (form a))) "") as [E|E];
      [left; reflexivity|].
    right. eexists. split; [apply (ui_add a utcnow E)|].
    now rewrite refreshed_db_file.
  - left. now rewrite refreshed_db_file.
  - left. now rewrite refreshed_db_file.
  - left. now rewrite refreshed_db_file.
  - left. now rewrite refreshed_db_file.
  - left. unfold handle, handler, export_csv_dialog.
    destruct (String.eqb path ""); [reflexivity|].
    destruct (export_tasks_to_csv path (db_file a) flt (disk a)) as [[[ok msg]|x] fs];
      reflexivity.
  - destruct (selected_truthy a) as [k|] eqn:Hk; [|left; reflexivity].
    destruct (String.eqb_spec (strip (details_name (details a))) "") as [E|E];
      [left; reflexivity|].
    right. eexists. split; [apply (ui_update a k Hk E)|].
    now rewrite refreshed_db_file.
  - destruct (selected_truthy a) as [k|]; [|left; reflexivity].
    destruct answer; [|left; reflexivity].
    right. exists (call_delete_task k). split; [constructor|].
    now rewrite refreshed_db_file.
  - left. destruct (card_of w a) as [c|]; [|reflexivity].
    now destruct (select_setting (card_task c) a) as [E _].
  - destruct (card_of w a) as [c|]; [|left; reflexivity].
    right. exists (call_toggle_completed (card_task c)). split; [constructor|].
    rewrite refreshed_db_file. now destruct (is_selected _ _).
  - destruct (card_of w a) as [c|]; [|left; reflexivity].
    destruct answer; [|left; reflexivity].
    right. exists (call_delete_task (card_task c)). split; [constructor|].
    rewrite refreshed_db_file. now destruct (is_selected _ _).
Qed.

Lemma handle_store (e : event) (a : app) :
  online a ->
  db_file (handle e a) = db_file a \/
  exists c, ui_call a c /\ db_file (handle e a) = perform c (db_file a).
Proof.
  intros Hon. rewrite (core_db_file _ _ (handle_core e a Hon)). apply effect_store.
Qed.

Lemma perform_online (c : call) (d : db) : exists d', perform c (Online d) = Online d'.
Proof.
  unfold perform. destruct c as [n ds du p now | k n ds du p | k | k].
  - unfold add_task, int_. cbn [get_connection bind].
    destruct (py_int p); cbn [bind store_after]; eauto.
  - unfold update_task, int_. cbn [get_connection bind].
    destruct (py_int p); cbn [bind store_after]; eauto.
  - cbn. eauto.
  - cbn. eauto.
Qed.

Lemma handle_online (e : event) (a : app) : online a -> online (handle e a).
Proof.
  intros Hon. destruct (handle_store e a Hon) as [H | (c & _ & H)]; unfold online.
  - rewrite H. exact Hon.
  - rewrite H. destruct Hon as [d ->]. apply perform_online.
Qed.

Lemma run_online (es : list event) (a : app) : online a -> online (run es a).
Proof.
  revert a. induction es as [|e es IH]; intros a H; simpl; [exact H|].
  apply IH. now apply handle_online.
Qed.

(** ** The rows the forms write *)

Lemma or_None_idem (o : option string) : or_None (or_None o) = or_None o.
Proof.
  destruct o as [s|]; [|reflexivity]. unfold or_None; simpl.
  destruct (String.eqb s "") eqn:E; simpl; [reflexivity | now rewrite E].
Qed.

Lemma or_None_Some (o : option string) (s : string) :
  or_None o = Some s -> o = Some s /\ s <> EmptyString.
Proof.
  destruct o as [x|]; [|discriminate]. unfold or_None; simpl.
  destruct (String.eqb_spec x ""); simpl; [discriminate|]. intros [= ->]. auto.
Qed.

Lemma written_row_normal (x y z : string) (i c : Z) (created : string) (p : Z) :
  strip x <> EmptyString ->
  normal (mkRow i (strip x) (Some (strip y)) c created
                (or_None (or_None (Some (strip z)))) (Int p)).
Proof.
  intros Hx. unfold normal; cbn [name description due_date priority].
  repeat split.
  - apply strip_idem.
  - exact Hx.
  - exists (strip y). split; [reflexivity | apply strip_idem].
  - apply or_None_idem.
  - intros du H. rewrite or_None_idem in H. apply or_None_Some in H as [[= <-] _].
    apply strip_idem.
  - now exists p.
Qed.

Lemma toggle_row_normal (t : row) : normal t -> normal (toggle_row t).
Proof. unfold normal, toggle_row; cbn. auto. Qed.

Lemma ui_call_tidy (a : app) (c : call) (s : store) :
  ui_call a c -> tidy s -> tidy (perform c s).
Proof.
  intros Hc [Hpk Hn]. split; [now apply perform_primary_key|].
  destruct Hpk as (d & -> & _). specialize (Hn d eq_refl).
  intros d' Hd' t Ht. unfold perform in Hd'.
  destruct Hc as [now Hx | k Hk Hx | k | k].
  - rewrite online_add_task in Hd'. injection Hd' as <-.
    unfold sql_insert in Ht; cbn [rows] in Ht.
    apply in_app_or in Ht as [Ht | [<- | []]]; [now apply Hn|].
    now apply written_row_normal.
  - rewrite online_update_task in Hd'. injection Hd' as <-.
    unfold sql_update in Ht; cbn [rows] in Ht.
    apply in_map_iff in Ht as (r & <- & Hr).
    destruct (id r =? k); [|now apply Hn].
    now apply written_row_normal.
  - injection Hd' as <-. unfold sql_delete in Ht; cbn [rows] in Ht.
    apply filter_In in Ht as [Ht _]. now apply Hn.
  - injection Hd' as <-. unfold sql_toggle in Ht; cbn [rows] in Ht.
    apply in_map_iff in Ht as (r & <- & Hr).
    destruct (id r =? k); [apply toggle_row_normal|]; now apply Hn.
Qed.

Lemma tidy_online (a : app) : tidy (db_file a) -> online a.
Proof. intros [(d & H & _) _]. now exists d. Qed.

Lemma milk_db_tidy : tidy (Online milk_db).
Proof.
  split.
  - exists milk_db. repeat split.
    + repeat constructor. intros [].
    + destruct H as [<- | []]. simpl. lia.
    + destruct H as [<- | []]. simpl. lia.
  - intros d [= <-] t [<- | []]. unfold normal. cbn.
    repeat split; try discriminate; eauto.
    intros du [= <-]. reflexivity.
Qed.

(** X10: whatever the user does in the window, the rows of the store stay
    as the forms write them: the ids pairwise different and positive, every
    name stripped and not empty, description and due date stripped, an
    empty due date stored as NULL, the priority an integer. *)
Theorem window_keeps_rows_tidy (es : list event) (a : app) :
  tidy (db_file a) -> tidy (db_file (run es a)).
Proof.
  revert a. induction es as [|e es IH]; intros a H; simpl; [exact H|].
  apply IH. destruct (handle_store e a (tidy_online a H)) as [E | (c & Hc & E)];
    rewrite E; [exact H | now apply (ui_call_tidy a)].
Qed.

Lemma window_keeps_rows_tidy_witness :
  tidy (db_file (run [type_entry_name " Buy bread "; click_add_task noon;
                      click_view 2%nat; type_details_due " 2025-03-05"; click_save]
                     (started milk_db no_files))).
Proof.
  apply (window_keeps_rows_tidy
           [type_entry_name " Buy bread "; click_add_task noon;
            click_view 2%nat; type_details_due " 2025-03-05"; click_save]
           (started milk_db no_files)).
  exact milk_db_tidy.
Defined.

(** ** Priorities through the window *)

Lemma core_form_details (a b : app) :
  core a = core b -> db_file a = db_file b /\ form a = form b /\ details a = details b.
Proof. intros H. unfold core in H. injection H. intros. auto. Qed.

Lemma priorities_core (a b : app) :
  core a = core b -> priorities_in_range b -> priorities_in_range a.
Proof.
  intros H. apply core_form_details in H as (E1 & E2 & E3).
  unfold priorities_in_range. now rewrite E1, E2, E3.
Qed.

Lemma priority_of_menu_values (v : string) :
  In v priority_values ->
  priority_of_menu v = 1 \/ priority_of_menu v = 2 \/ priority_of_menu v = 3.
Proof. intros [<- | [<- | [<- | []]]]; cbv; auto. Qed.

Lemma priority_value_in (c : priority_choice) : In (priority_value c) priority_values.
Proof. destruct c; simpl; auto. Qed.

Lemma details_priority_label_values (t : row) :
  priority t = Int 1 \/ priority t = Int 2 \/ priority t = Int 3 ->
  In (details_priority_label t) priority_values.
Proof.
  unfold details_priority_label, int_or_2.
  intros [H | [H | H]]; rewrite H; cbv; auto.
Qed.

Lemma stored_task_In (k : Z) (a : app) (d : db) (t : row) :
  db_file a = Online d -> stored_task k a = Some t -> In t (rows d) /\ id t = k.
Proof.
  intros Hd. rewrite (stored_task_online _ _ _ Hd). unfold sql_select_id.
  intros H. apply find_some in H as [H1 H2]. split; [exact H1 | now apply Z.eqb_eq].
Qed.

Lemma select_priorities (k : Z) (a : app) :
  priorities_in_range a -> priorities_in_range (select k a).
Proof.
  intros ((d & Hd & Hp) & Hf & Hdt). unfold select.
  destruct (stored_task k a) as [t|] eqn:E; [|now repeat split; eauto].
  split; [exists d; split; assumption|]. split; [exact Hf|].
  cbn. apply details_priority_label_values, Hp.
  now destruct (stored_task_In _ _ _ _ Hd E).
Qed.

Lemma deselect_priorities (a : app) :
  priorities_in_range a -> priorities_in_range (deselect a).
Proof.
  intros (Hs & Hf & _). split; [exact Hs|]. split; [exact Hf|]. cbn. auto.
Qed.

Lemma reshown_priorities (a : app) :
  priorities_in_range a -> priorities_in_range (reshown a).
Proof.
  intros H. unfold reshown. destruct (selected_truthy a) as [k|]; [|exact H].
  destruct (stored_task k a); [now apply select_priorities | now apply deselect_priorities].
Qed.

Lemma refreshed_priorities (a : app) :
  priorities_in_range a -> priorities_in_range (refreshed a).
Proof.
  intros H. unfold refreshed. apply reshown_priorities.
  unfold listed. destruct (listing a); exact H.
Qed.

Lemma perform_priorities (a : app) (c : call) (d : db) :
  ui_call a c ->
  In (priority_opt (form a)) priority_values ->
  In (details_priority (details a)) priority_values ->
  (forall t, In t (rows d) -> priority t = Int 1 \/ priority t = Int 2 \/ priority t = Int 3) ->
  exists d', perform c (Online d) = Online d' /\
    forall t, In t (rows d') -> priority t = Int 1 \/ priority t = Int 2 \/ priority t = Int 3.
Proof.
  intros Hc Hf Hdt Hp. unfold perform. destruct Hc as [now Hx | k Hk Hx | k | k].
  - rewrite online_add_task. eexists. split; [reflexivity|].
    unfold sql_insert; cbn [rows]. intros t Ht.
    apply in_app_or in Ht as [Ht | [<- | []]]; [now apply Hp|].
    cbn [priority]. destruct (priority_of_menu_values _ Hf) as [E | [E | E]];
      rewrite E; auto.
  - rewrite online_update_task. eexists. split; [reflexivity|].
    unfold sql_update; cbn [rows]. intros t Ht.
    apply in_map_iff in Ht as (r & <- & Hr).
    destruct (id r =? k); [|now apply Hp].
    cbn [set_row priority]. destruct (priority_of_menu_values _ Hdt) as [E | [E | E]];
      rewrite E; auto.
  - eexists. split; [reflexivity|]. unfold sql_delete; cbn [rows]. intros t Ht.
    apply filter_In in Ht as [Ht _]. now apply Hp.
  - eexists. split; [reflexivity|]. unfold sql_toggle; cbn [rows]. intros t Ht.
    apply in_map_iff in Ht as (r & <- & Hr).
    destruct (id r =? k); [cbn [toggle_row priority]|]; now apply Hp.
Qed.

Lemma written_priorities (a : app) (c : call) (f : form_panel) (p : details_panel)
    (b : app) :
  ui_call a c -> priorities_in_range a ->
  db_file b = perform c (db_file a) ->
  (form b = form a \/ form b = cleared_form) ->
  (details b = details a \/ details b = cleared_details) ->
  priorities_in_range b.
Proof.
  intros Hc ((d & Hd & Hp) & Hf & Hdt) Hb Hfb Hdb.
  rewrite Hd in Hb. destruct (perform_priorities a c d Hc Hf Hdt Hp) as (d' & E & Hp').
  split; [exists d'; split; [congruence | exact Hp']|].
  split.
  - destruct Hfb as [-> | ->]; [exact Hf | simpl; auto].
  - destruct Hdb as [-> | ->]; [exact Hdt | simpl; auto].
Qed.

Lemma same_priorities (a b : app) :
  priorities_in_range a ->
  db_file b = db_file a -> priority_opt (form b) = priority_opt (form a) ->
  details_priority (details b) = details_priority (details a) ->
  priorities_in_range b.
Proof.
  intros H E1 E2 E3. unfold priorities_in_range. now rewrite E1, E2, E3.
Qed.

Lemma effect_priorities (e : event) (a : app) :
  priorities_in_range a -> priorities_in_range (effect e a).
Proof.
  intros H. pose proof H as ((d & Hd & Hp) & Hf & Hdt).
  destruct e; unfold effect;
    try (apply (same_priorities a); [exact H | reflexivity ..]).
  - (* priority menu of the form *)
    split; [exists d; split; assumption|]. split; [apply priority_value_in | exact Hdt].
  - (* Add Task *)
    destruct (String.eqb_spec (strip (entry_name (form a))) "") as [E|E].
    + apply (same_priorities a); [exact H | reflexivity ..].
    + apply refreshed_priorities.
      eapply (written_priorities a _ (form a) (details a));
        [apply (ui_add a utcnow E) | exact H | reflexivity | now right | now left].
  - apply refreshed_priorities. apply (same_priorities a); [exact H | reflexivity ..].
  - apply refreshed_priorities. apply (same_priorities a); [exact H | reflexivity ..].
  - now apply refreshed_priorities.
  - apply refreshed_priorities. apply (same_priorities a); [exact H | reflexivity ..].
  - (* Export *)
    unfold handle, handler, export_csv_dialog.
    destruct (String.eqb path ""); [exact H|].
    destruct (export_tasks_to_csv path (db_file a) flt (disk a)) as [[[ok msg]|x] fs];
      apply (same_priorities a); try exact H; reflexivity.
  - (* description box *)
    apply (same_priorities a); [exact H | reflexivity | reflexivity |].
    unfold handle, handler. ui_unfold. now destruct (details_desc_enabled (details a)).
  - (* priority menu of the details *)
    split; [exists d; split; assumption|]. split; [exact Hf | apply priority_value_in].
  - (* Save *)
    destruct (selected_truthy a) as [k|] eqn:Hk;
      [|apply (same_priorities a); [exact H | reflexivity ..]].
    destruct (String.eqb_spec (strip (details_name (details a))) "") as [E|E].
    + apply (same_priorities a); [exact H | reflexivity ..].
    + apply refreshed_priorities.
      eapply (written_priorities a _ (form a) (details a));
        [apply (ui_update a k Hk E) | exact H | reflexivity | now left | now right].
  - (* Delete *)
    destruct (selected_truthy a) as [k|];
      [|apply (same_priorities a); [exact H | reflexivity ..]].
    destruct answer; [|apply (same_priorities a); [exact H | reflexivity ..]].
    apply refreshed_priorities.
    eapply (written_priorities a (call_delete_task k) (form a) (details a));
      [constructor | exact H | reflexivity | now left | now right].
  - (* View *)
    destruct (card_of w a) as [c|]; [now apply select_priorities | exact H].
  - (* Mark *)
    destruct (card_of w a) as [c|]; [|exact H].
    apply refreshed_priorities.
    eapply (written_priorities a (call_toggle_completed (card_task c)) (form a) (details a));
      [constructor | exact H | | |];
      destruct (is_selected _ _); try reflexivity; auto.
  - (* Delete on a card *)
    destruct (card_of w a) as [c|]; [|exact H].
    destruct answer; [|apply (same_priorities a); [exact H | reflexivity ..]].
    apply refreshed_priorities.
    eapply (written_priorities a (call_delete_task (card_task c)) (form a) (details a));
      [constructor | exact H | | |];
      destruct (is_selected _ _); try reflexivity; auto.
Qed.

(** X11: when the priorities of the store are 1, 2 or 3 and the two
    priority menus show one of their values, this stays so whatever the user
    does in the window: no handler stores another priority or puts
    another label on a menu. *)
Theorem window_keeps_priorities (es : list event) (a : app) :
  priorities_in_range a -> priorities_in_range (run es a).
Proof.
  revert a. induction es as [|e es IH]; intros a H; simpl; [exact H|].
  apply IH. eapply priorities_core; [apply handle_core | now apply effect_priorities].
  destruct H as ((d & Hd & _) & _). now exists d.
Qed.

Lemma started_milk_priorities : priorities_in_range (started milk_db no_files).
Proof.
  split; [|split; [right; left; reflexivity | right; left; reflexivity]].
  exists milk_db. split; [reflexivity|]. intros t [<- | []]. left. reflexivity.
Qed.

Lemma window_keeps_priorities_witness :
  priorities_in_range
    (run [pick_priority_opt choose_low; type_entry_name "Buy bread"; click_add_task noon;
          click_view 2%nat; pick_details_priority choose_medium; click_save]
         (started milk_db no_files)).
Proof.
  apply (window_keeps_priorities
           [pick_priority_opt choose_low; type_entry_name "Buy bread";
            click_add_task noon; click_view 2%nat;
            pick_details_priority choose_medium; click_save]
           (started milk_db no_files)).
  exact started_milk_priorities.
Defined.

(** ** The cards and the listing *)







(** ** The start of the window *)

Lemma first_paint_core (d : db) (fs : files) :
  fst (apply_theme LIGHT (build_ui (Online d) fs)) = Returns tt /\
  core (first_paint d fs) =
  core (refreshed (set_window (chrome_of LIGHT false) (build_ui (Online d) fs))).
Proof.
  unfold first_paint, apply_theme. ui_unfold.
  match goal with
  | |- context [refresh_tasks ?b] =>
      assert (Hon : online b) by (exists d; reflexivity);
      destruct (refresh_tasks_core b Hon) as [H1 H2]
  end.
  split; [exact H1 | exact H2].
Qed.

Lemma started_refresh (d : db) (fs : files) :
  started d fs = handle click_refresh (first_paint d fs).
Proof.
  unfold started, startup, handle, handler, first_paint.
  destruct (first_paint_core d fs) as [H1 _].
  unfold ui_bind at 1. unfold commit at 1.
  cbn [db_file build_ui init_db get_connection bind].
  unfold ui_bind at 1.
  change (set_db_file (Online d) (build_ui (Online d) fs)) with (build_ui (Online d) fs).
  destruct (apply_theme LIGHT (build_ui (Online d) fs)) as [o b].
  cbn [fst snd] in *. now rewrite H1.
Qed.

Lemma first_paint_online (d : db) (fs : files) : online (first_paint d fs).
Proof.
  exists d. destruct (first_paint_core d fs) as [_ H].
  rewrite (core_db_file _ _ H). now rewrite refreshed_db_file.
Qed.

Lemma started_online (d : db) (fs : files) : online (started d fs).
Proof. rewrite started_refresh. apply handle_online, first_paint_online. Qed.

Lemma started_db_file (d : db) (fs : files) : db_file (started d fs) = Online d.
Proof.
  rewrite started_refresh.
  rewrite (core_db_file _ _ (handle_core click_refresh _ (first_paint_online d fs))).
  unfold effect. rewrite refreshed_db_file.
  destruct (first_paint_core d fs) as [_ H].
  rewrite (core_db_file _ _ H). now rewrite refreshed_db_file.
Qed.


(** ** The selection and the store *)

Lemma find_id_app_old (k : Z) (l l' : list row) (t : row) :
  find (fun r => id r =? k) l = Some t -> find (fun r => id r =? k) (l ++ l') = Some t.
Proof.
  induction l as [|x l IH]; simpl; [discriminate|].
  destruct (id x =? k); auto.
Qed.

Lemma find_id_filter_other (k k' : Z) (l : list row) :
  k' <> k ->
  find (fun r => id r =? k) (filter (fun r => negb (id r =? k')) l) =
  find (fun r => id r =? k) l.
Proof.
  intros Hk. induction l as [|x l IH]; simpl; [reflexivity|].
  destruct (Z.eqb_spec (id x) k') as [E|E]; simpl.
  - destruct (Z.eqb_spec (id x) k); [congruence | exact IH].
  - destruct (id x =? k); [reflexivity | exact IH].
Qed.

Lemma perform_keeps_stored (k : Z) (c : call) (d : db) (t : row) :
  sql_select_id k d = Some t ->
  c <> call_delete_task k ->
  exists d' t', perform c (Online d) = Online d' /\ sql_select_id k d' = Some t'.
Proof.
  intros Ht Hc. unfold perform, sql_select_id in *.
  destruct c as [n ds du p now | k' n ds du p | k' | k'].
  - unfold add_task, int_. cbn [get_connection bind].
    destruct (py_int p); cbn [bind store_after]; [|eauto].
    do 2 eexists. split; [reflexivity|]. unfold sql_insert; cbn [rows].
    eapply find_id_app_old. exact Ht.
  - unfold update_task, int_. cbn [get_connection bind].
    destruct (py_int p); cbn [bind store_after]; [|eauto].
    do 2 eexists. split; [reflexivity|]. unfold sql_update; cbn [rows].
    rewrite find_id_map, Ht; [reflexivity|].
    intros r. destruct (id r =? k'); reflexivity.
  - destruct (Z.eq_dec k' k) as [->|Hne]; [contradiction|].
    do 2 eexists. split; [reflexivity|]. unfold sql_delete; cbn [rows].
    rewrite find_id_filter_other by assumption. exact Ht.
  - do 2 eexists. split; [reflexivity|]. unfold sql_toggle; cbn [rows].
    rewrite find_id_map, Ht; [reflexivity|].
    intros r. destruct (id r =? k'); reflexivity.
Qed.

Lemma selection_core (a b : app) :
  core a = core b -> selection_stored b -> selection_stored a.
Proof.
  intros H. unfold core in H. injection H. intros _ _ E10 _ _ _ _ _ _ _ _ E1.
  unfold selection_stored, stored_task. now rewrite E1, E10.
Qed.

Lemma select_selection_stored (k : Z) (a : app) :
  selection_stored a -> selection_stored (select k a).
Proof.
  intros H. unfold select. destruct (stored_task k a) as [t|] eqn:E; [|exact H].
  intros k' [= <-]. exists t. exact E.
Qed.

Lemma reshown_selection_stored (a : app) :
  (selected_task_id a = Some 0 -> exists t, stored_task 0 a = Some t) ->
  selection_stored (reshown a).
Proof.
  intros H0. unfold reshown, selected_truthy.
  destruct (selected_task_id a) as [k|] eqn:Hs.
  - destruct (Z.eqb_spec k 0) as [->|Hk].
    + intros k' Hk'. rewrite Hs in Hk'. injection Hk' as <-. now apply H0.
    + destruct (stored_task k a) as [t|] eqn:E.
      * unfold select. rewrite E. intros k' [= <-]. exists t. exact E.
      * intros k' Hk'. discriminate.
  - intros k' Hk'. congruence.
Qed.

Lemma refreshed_selection_stored (a : app) :
  (selected_task_id a = Some 0 -> exists t, stored_task 0 a = Some t) ->
  selection_stored (refreshed a).
Proof.
  intros H0. pose proof (reshown_selection_stored a H0) as H.
  destruct (refreshed_selection a) as [Es _].
  intros k Hk. rewrite Es in Hk. destruct (H k Hk) as [t Ht]. exists t.
  unfold stored_task in *. rewrite refreshed_db_file.
  now destruct (reshown_setting a) as [<- _].
Qed.

Lemma written_keeps_zero (a b : app) (c : call) :
  online a -> selection_stored a ->
  db_file b = perform c (db_file a) ->
  selected_task_id b = selected_task_id a ->
  (selected_task_id a = Some 0 -> c <> call_delete_task 0) ->
  selected_task_id b = Some 0 -> exists t, stored_task 0 b = Some t.
Proof.
  intros [d Hd] Hs Hb Hsel Hc H0. rewrite Hsel in H0.
  destruct (Hs 0 H0) as [t Ht]. rewrite (stored_task_online _ _ _ Hd) in Ht.
  destruct (perform_keeps_stored 0 c d t Ht (Hc H0)) as (d' & t' & E & Ht').
  exists t'. rewrite Hd, E in Hb. now rewrite (stored_task_online _ _ _ Hb).
Qed.

Lemma selection_same (a b : app) :
  selection_stored a -> db_file b = db_file a ->
  selected_task_id b = selected_task_id a -> selection_stored b.
Proof.
  intros H E1 E2. unfold selection_stored, stored_task. now rewrite E1, E2.
Qed.

Lemma same_keeps_zero (a b : app) :
  selection_stored a -> db_file b = db_file a ->
  selected_task_id b = selected_task_id a ->
  selected_task_id b = Some 0 -> exists t, stored_task 0 b = Some t.
Proof. intros H E1 E2. now apply (selection_same a b). Qed.

Lemma effect_selection (e : event) (a : app) :
  online a -> selection_stored a -> selection_stored (effect e a).
Proof.
  intros Hon H.
  destruct e; unfold effect;
    try (apply (selection_same a); [exact H | reflexivity ..]; fail);
    try (apply refreshed_selection_stored;
         apply (same_keeps_zero a); [exact H | reflexivity ..]; fail).
  - (* Add Task *)
    destruct (String.eqb (strip (entry_name (form a))) "").
    + apply (selection_same a); [exact H | reflexivity ..].
    + apply refreshed_selection_stored.
      eapply (written_keeps_zero a _ (call_add_task _ _ _ _ utcnow));
        [exact Hon | exact H | reflexivity | reflexivity | discriminate].
  - (* Export *)
    unfold handle, handler, export_csv_dialog.
    destruct (String.eqb path ""); [exact H|].
    destruct (export_tasks_to_csv path (db_file a) flt (disk a)) as [[[ok msg]|x] fs];
      apply (selection_same a); try exact H; reflexivity.
  - (* Save *)
    destruct (selected_truthy a) as [k|];
      [|apply (selection_same a); [exact H | reflexivity ..]].
    destruct (String.eqb (strip (details_name (details a))) "").
    + apply (selection_same a); [exact H | reflexivity ..].
    + apply refreshed_selection_stored. discriminate.
  - (* Delete *)
    destruct (selected_truthy a) as [k|];
      [|apply (selection_same a); [exact H | reflexivity ..]].
    destruct answer; [|apply (selection_same a); [exact H | reflexivity ..]].
    apply refreshed_selection_stored. discriminate.
  - (* View *)
    destruct (card_of w a) as [c|]; [now apply select_selection_stored | exact H].
  - (* Mark *)
    destruct (card_of w a) as [c|]; [|exact H].
    apply refreshed_selection_stored.
    destruct (is_selected _ _); [discriminate|].
    apply (written_keeps_zero a _ (call_toggle_completed (card_task c)));
      [exact Hon | exact H | reflexivity | reflexivity | discriminate].
  - (* Delete on a card *)
    destruct (card_of w a) as [c|]; [|exact H].
    destruct answer; [|apply (selection_same a); [exact H | reflexivity ..]].
    apply refreshed_selection_stored.
    destruct (is_selected _ _) eqn:E; [discriminate|].
    apply (written_keeps_zero a _ (call_delete_task (card_task c)));
      [exact Hon | exact H | reflexivity | reflexivity |].
    intros H0 [= Hc]. unfold is_selected in E.
    cbn [selected_task_id written set_db_file told set_dialogs] in E.
    rewrite H0, Hc in E. discriminate.
Qed.

(** X13: from the start of the window on and whatever the user does, a
    selected task is a task of the store: the selection is dropped or shown
    again by every handler that deletes or rewrites tasks. *)
Theorem selected_task_is_stored (d : db) (fs : files) (es : list event) :
  selection_stored (run es (started d fs)).
Proof.
  assert (H : online (started d fs) /\ selection_stored (started d fs)).
  { split; [apply started_online|]. rewrite started_refresh.
    pose proof (first_paint_online d fs) as Hon.
    eapply selection_core; [now apply handle_core|].
    apply effect_selection; [exact Hon|].
    destruct (first_paint_core d fs) as [_ Hc].
    eapply selection_core; [exact Hc|].
    apply refreshed_selection_stored. discriminate. }
  revert H. generalize (started d fs).
  induction es as [|e es IH]; intros a [Hon H]; simpl; [exact H|].
  apply IH. split; [now apply handle_online|].
  eapply selection_core; [now apply handle_core | now apply effect_selection].
Qed.

(** ** The theme *)

Lemma themed_core (a b : app) : core a = core b -> themed b -> themed a.
Proof.
  intros H. unfold core in H. injection H. intros _ _ _ _ _ _ _ E5 E4 E3 _ _.
  unfold themed. now rewrite E3, E4, E5.
Qed.

Lemma themed_same (a b : app) :
  themed a -> appearance_dark b = appearance_dark a ->
  dark_mode_var b = dark_mode_var a -> window b = window a -> themed b.
Proof. intros H E3 E4 E5. unfold themed. now rewrite E3, E4, E5. Qed.

Lemma refreshed_themed (a : app) : themed a -> themed (refreshed a).
Proof.
  intros H. destruct (refreshed_theme a) as (E3 & E4 & E5). now apply (themed_same a).
Qed.

Lemma effect_themed (e : event) (a : app) : themed a -> themed (effect e a).
Proof.
  intros H.
  destruct e; unfold effect;
    try (apply (themed_same a); [exact H | reflexivity ..]; fail);
    try (apply refreshed_themed; apply (themed_same a); [exact H | reflexivity ..]; fail).
  - (* Add Task *)
    destruct (String.eqb (strip (entry_name (form a))) "");
      [|apply refreshed_themed]; apply (themed_same a); try exact H; reflexivity.
  - (* theme switch *)
    apply refreshed_themed. unfold themed.
    cbn [appearance_dark dark_mode_var window set_window set_appearance_dark
         set_dark_mode_var].
    split; reflexivity.
  - (* Export *)
    unfold handle, handler, export_csv_dialog.
    destruct (String.eqb path ""); [exact H|].
    destruct (export_tasks_to_csv path (db_file a) flt (disk a)) as [[[ok msg]|x] fs];
      apply (themed_same a); try exact H; reflexivity.
  - (* Save *)
    destruct (selected_truthy a) as [k|];
      [|apply (themed_same a); [exact H | reflexivity ..]].
    destruct (String.eqb (strip (details_name (details a))) "");
      [|apply refreshed_themed]; apply (themed_same a); try exact H; reflexivity.
  - (* Delete *)
    destruct (selected_truthy a) as [k|];
      [|apply (themed_same a); [exact H | reflexivity ..]].
    destruct answer; [apply refreshed_themed|];
      apply (themed_same a); try exact H; reflexivity.
  - (* View *)
    destruct (card_of w a) as [c|]; [|exact H].
    destruct (select_setting (card_task c) a) as (_ & _ & E3 & E4 & E5 & _).
    now apply (themed_same a).
  - (* Mark *)
    destruct (card_of w a) as [c|]; [|exact H].
    apply refreshed_themed. destruct (is_selected _ _);
      apply (themed_same a); try exact H; reflexivity.
  - (* Delete on a card *)
    destruct (card_of w a) as [c|]; [|exact H].
    destruct answer; [apply refreshed_themed; destruct (is_selected _ _)|];
      apply (themed_same a); try exact H; reflexivity.
Qed.

(** X14: from the start of the window on and whatever the user does, the
    appearance mode is the one the switch shows, and the frames and labels
    have the colours of the palette of that mode. *)
Theorem theme_follows_the_switch (d : db) (fs : files) (es : list event) :
  themed (run es (started d fs)).
Proof.
  assert (H : online (started d fs) /\ themed (started d fs)).
  { split; [apply started_online|]. rewrite started_refresh.
    pose proof (first_paint_online d fs) as Hon.
    eapply themed_core; [now apply handle_core|].
    apply effect_themed.
    destruct (first_paint_core d fs) as [_ Hc].
    eapply themed_core; [exact Hc|].
    apply refreshed_themed. split; reflexivity. }
  revert H. generalize (started d fs).
  induction es as [|e es IH]; intros a [Hon H]; simpl; [exact H|].
  apply IH. split; [now apply handle_online|].
  eapply themed_core; [now apply handle_core | now apply effect_themed].
Qed.

(** ** Timers *)

Lemma keeps_bind {A B : Type} (P : app -> Prop) (c : ui A) (k : A -> ui B) :
  keeps P c -> (forall x, keeps P (k x)) -> keeps P (ui_bind c k).
Proof.
  intros Hc Hk a Ha. unfold ui_bind. specialize (Hc a Ha).
  destruct (c a) as [[x|e] a']; cbn [snd] in *; [now apply Hk | exact Hc].
Qed.

Lemma keeps_ret {A : Type} (P : app -> Prop) (x : A) : keeps P (ui_ret x).
Proof. intros a Ha. exact Ha. Qed.

Lemma keeps_gets {A : Type} (P : app -> Prop) (f : app -> A) : keeps P (gets f).
Proof. intros a Ha. exact Ha. Qed.

Lemma keeps_query {A : Type} (P : app -> Prop) (q : store -> outcome A) :
  keeps P (query q).
Proof. intros a Ha. exact Ha. Qed.

Lemma keeps_update (P : app -> Prop) (f : app -> app) :
  (forall a, P a -> P (f a)) -> keeps P (update_ui f).
Proof. intros H a Ha. now apply H. Qed.

Lemma keeps_commit (P : app -> Prop) (w : store -> outcome store) :
  (forall s a, P a -> P (set_db_file s a)) -> keeps P (commit w).
Proof.
  intros H a Ha. unfold commit. destruct (w (db_file a)); cbn [snd]; auto.
Qed.

Lemma one_pulse_same (a b : app) :
  one_pulse a -> pulse_after_id b = pulse_after_id a -> timers b = timers a ->
  one_pulse b.
Proof. intros H E1 E2. unfold one_pulse. now rewrite E1, E2. Qed.

Lemma step_one_pulse (p : pulse) (a : app) :
  timers a = [] -> one_pulse (snd (step p a)).
Proof.
  intros H. unfold step, update_ui, after, configure_fg. cbn [snd].
  destruct (S (next_step p) <=? steps)%nat; unfold one_pulse; cbn; rewrite H.
  - eexists. reflexivity.
  - reflexivity.
Qed.

Lemma one_pulse_cancelled (a : app) :
  one_pulse a ->
  timers (pulse_cancelled a) = [] /\ pulse_after_id (pulse_cancelled a) = None.
Proof.
  unfold one_pulse, pulse_cancelled. destruct (pulse_after_id a) as [i|] eqn:E; [|auto].
  intros [p Hp]. unfold after_cancel. cbn. rewrite Hp. cbn.
  now rewrite Nat.eqb_refl.
Qed.

Lemma animate_one_pulse (task_id : Z) : keeps one_pulse (animate_selection task_id).
Proof.
  intros a Ha. destruct (one_pulse_cancelled a Ha) as [Ht Hp].
  unfold animate_selection, ui_bind, update_ui, gets, ui_ret. cbn [fst snd].
  fold (pulse_cancelled a).
  destruct (find _ (task_card_widgets (pulse_cancelled a))) as [c|].
  - now apply step_one_pulse.
  - unfold one_pulse. cbn [snd]. now rewrite Hp, Ht.
Qed.

Lemma timer_fires_one_pulse (i : nat) : keeps one_pulse (timer_fires i).
Proof.
  intros a Ha. unfold timer_fires, ui_bind, update_ui, gets, ui_ret. cbn [fst snd].
  destruct (find _ (timers a)) as [[j p]|] eqn:E; [|exact Ha].
  cbn [fst snd]. apply step_one_pulse.
  unfold one_pulse in Ha. destruct (pulse_after_id a) as [j'|].
  - destruct Ha as [q Hq]. rewrite Hq in E. cbn in E.
    destruct (Nat.eqb j' i) eqn:Ei; [|discriminate].
    unfold after_cancel. cbn [timers set_timers]. rewrite Hq. cbn. now rewrite Ei.
  - rewrite Ha in E. discriminate.
Qed.

Ltac keeps_cases :=
  match goal with
  | |- keeps _ (match ?x with _ => _ end) => destruct x; cbv beta iota
  | |- keeps _ (if ?x then _ else _) => destruct x; cbv beta iota
  end.

Ltac keeps_pulse :=
  repeat first
    [ apply keeps_ret | apply keeps_gets | apply keeps_query
    | apply animate_one_pulse | apply timer_fires_one_pulse
    | apply keeps_commit; intros s a H; apply (one_pulse_same a); [exact H | reflexivity ..]
    | apply keeps_update; intros a H; apply (one_pulse_same a); [exact H | reflexivity ..]
    | apply keeps_bind; [|intros ?] ].

Lemma on_task_selected_one_pulse (task_id : Z) : keeps one_pulse (on_task_selected task_id).
Proof.
  unfold on_task_selected. apply keeps_bind; [keeps_pulse|]. intros [t|]; keeps_pulse.
Qed.

Lemma clear_details_one_pulse : keeps one_pulse clear_details.
Proof. unfold clear_details. keeps_pulse. Qed.

Lemma refresh_tasks_one_pulse : keeps one_pulse refresh_tasks.
Proof.
  unfold refresh_tasks. keeps_pulse. keeps_cases; keeps_pulse.
  keeps_cases; [apply on_task_selected_one_pulse | apply clear_details_one_pulse].
Qed.

Lemma apply_theme_one_pulse (p : palette) : keeps one_pulse (apply_theme p).
Proof.
  unfold apply_theme. apply keeps_bind; [keeps_pulse|]. intros _.
  apply refresh_tasks_one_pulse.
Qed.

Lemma export_csv_dialog_one_pulse (path : string) (flt : fault) :
  keeps one_pulse (export_csv_dialog path flt).
Proof.
  unfold export_csv_dialog. destruct (String.eqb path ""); [apply keeps_ret|].
  intros a Ha.
  destruct (export_tasks_to_csv path (db_file a) flt (disk a)) as [[[ok msg]|x] fs];
    cbn [snd]; apply (one_pulse_same a); (exact Ha || reflexivity).
Qed.

Ltac keeps_handler :=
  repeat first
    [ match goal with
      | |- keeps _ refresh_tasks => apply refresh_tasks_one_pulse
      | |- keeps _ clear_details => apply clear_details_one_pulse
      | |- keeps _ (on_task_selected _) => apply on_task_selected_one_pulse
      | |- keeps _ (apply_theme _) => apply apply_theme_one_pulse
      | |- keeps _ (export_csv_dialog _ _) => apply export_csv_dialog_one_pulse
      | |- keeps _ (ui_bind _ _) => apply keeps_bind; [|intros ?]
      end
    | progress keeps_pulse | keeps_cases ].

Lemma handler_one_pulse (e : event) : keeps one_pulse (handler e).
Proof.
  destruct e; unfold handler, set_form_field, set_details_field, on_card,
    add_task_from_form, save_selected_task, delete_selected_task, delete_and_reload,
    toggle_complete_and_reload, toggle_dark_mode, show; keeps_handler.
Qed.

(** X15: from the start of the window on and whatever the user does, at
    most one timer of the selection pulse is pending, and it is the one
    that [pulse_after_id] names; with no pulse under way no timer is
    pending. *)
Theorem pulses_never_pile_up (d : db) (fs : files) (es : list event) :
  one_pulse (run es (started d fs)).
Proof.
  assert (H : one_pulse (started d fs)).
  { unfold started, startup.
    assert (K : keeps one_pulse (commit init_db ;;; apply_theme LIGHT ;;; refresh_tasks))
      by keeps_handler.
    apply K. reflexivity. }
  revert H. generalize (started d fs).
  induction es as [|e es IH]; intros a H; simpl; [exact H|].
  apply IH. now apply handler_one_pulse.
Qed.

(** ** A task seen and saved *)







Lemma render_cards_tasks (is_dark : bool) (w : nat) (tasks : list row) :
  map card_task (render_cards is_dark w tasks) = map id tasks.
Proof.
  revert w. induction tasks as [|t tasks IH]; intros w; simpl; [reflexivity|].
  now rewrite IH.
Qed.

Lemma in_sync_card_tasks (a : app) :
  in_sync a ->
  exists tasks, listing a = Returns tasks /\
                map card_task (task_card_widgets a) = map id tasks.
Proof.
  intros (tasks & w & Hl & Hc). exists tasks. split; [exact Hl|].
  rewrite <- (render_cards_tasks (appearance_dark a) w tasks).
  apply (f_equal (map card_task)) in Hc. rewrite !map_map in Hc. exact Hc.
Qed.

Lemma listing_rows (a : app) (d : db) (tasks : list row) :
  db_file a = Online d -> listing a = Returns tasks ->
  (forall t, In t tasks -> In t (rows d)) /\
  (NoDup (map id (rows d)) -> NoDup (map id tasks)).
Proof.
  intros Hd Hl. unfold listing in Hl. rewrite Hd in Hl.
  destruct (get_tasks_order_by (strip (search_var a)) (order_by_clause (order_var a)) d)
    as (l & Hg & ->).
  rewrite Hg in Hl. injection Hl as <-. split.
  - intros t Ht. apply (Permutation_in _ (order_by_perm _ _)) in Ht.
    now apply filter_In in Ht.
  - intros Hnd. eapply Permutation_NoDup.
    + apply Permutation_map. symmetry. apply order_by_perm.
    + now apply filter_ids_NoDup.
Qed.

(** The task of a card on the screen is in the store. *)
Lemma card_task_stored (a : app) (w : nat) (c : card_widget) :
  primary_key (db_file a) -> in_sync a -> card_of w a = Some c ->
  exists t, stored_task (card_task c) a = Some t /\ id t = card_task c /\
            card_task c <> 0 /\
            find (fun c' => card_task c' =? card_task c) (task_card_widgets a) = Some c.
Proof.
  intros (d & Hd & Hnd & Hpos) Hs Hc.
  destruct (in_sync_card_tasks a Hs) as (tasks & Hl & Hm).
  destruct (listing_rows a d tasks Hd Hl) as [Hin Hnd'].
  apply find_some in Hc as [Hc Hw].
  assert (Hk : In (card_task c) (map id tasks))
    by (rewrite <- Hm; now apply in_map).
  apply in_map_iff in Hk as (t & Ht & Htl).
  exists t. rewrite (stored_task_online _ _ d Hd). unfold sql_select_id.
  repeat split.
  - apply find_id_unique; auto.
  - exact Ht.
  - specialize (Hpos t (Hin t Htl)). lia.
  - specialize (Hnd' Hnd). rewrite <- Hm in Hnd'.
    clear - Hnd' Hc. induction (task_card_widgets a) as [|x l IH]; [contradiction|].
    simpl in *. inversion Hnd' as [|? ? Hx Hl]; subst.
    destruct Hc as [-> | Hc]; [now rewrite Z.eqb_refl|].
    destruct (Z.eqb_spec (card_task x) (card_task c)) as [E|_]; [|auto].
    exfalso. apply Hx. rewrite E. now apply in_map.
Qed.






Lemma started_milk_in_sync : in_sync (started milk_db no_files).
Proof. exists [milk], 1%nat. split; reflexivity. Qed.


(** ** The pulse of the selected card *)

Lemma pulse_cancelled_cards (a : app) :
  task_card_widgets (pulse_cancelled a) = task_card_widgets a /\
  appearance_dark (pulse_cancelled a) = appearance_dark a.
Proof. unfold pulse_cancelled. destruct (pulse_after_id a); split; reflexivity. Qed.

Lemma configure_fg_twice (w : nat) (c1 c2 : string) (a b : app) :
  task_card_widgets b = task_card_widgets (configure_fg w c1 a) ->
  task_card_widgets (configure_fg w c2 b) = task_card_widgets (configure_fg w c2 a).
Proof.
  unfold configure_fg. cbn [task_card_widgets set_task_card_widgets]. intros ->.
  rewrite map_map. apply map_ext. intros c.
  destruct (Nat.eqb (widget c) w) eqn:E; cbn [with_fg_color widget]; now rewrite E.
Qed.

Lemma view_starts_pulse (a : app) (w : nat) (c : card_widget) :
  one_pulse a -> primary_key (db_file a) -> in_sync a -> card_of w a = Some c ->
  pulsing w (fg_color c) (pulse_shade (appearance_dark a)) (task_card_widgets a) 0
          (handle (click_view w) a).
Proof.
  intros H1 Hpk Hs Hc.
  destruct (card_task_stored a w c Hpk Hs Hc) as (t & Hst & _ & _ & Hfind).
  destruct Hpk as (d & Hd & _).
  unfold handle, handler, on_card, on_task_selected.
  unfold ui_bind at 1. unfold gets at 1. unfold card_of in Hc. rewrite Hc.
  unfold ui_bind at 1. unfold query at 1. unfold stored_task in Hst.
  destruct (get_task_by_id (card_task c) (db_file a)) as [r|x]; [|discriminate].
  subst r. unfold ui_bind at 1. unfold update_ui at 1.
  set (a' := set_details _ _).
  assert (H1' : one_pulse a') by (apply (one_pulse_same a); [exact H1 | reflexivity ..]).
  destruct (one_pulse_cancelled a' H1') as [Ht Hp].
  destruct (pulse_cancelled_cards a') as [Ec Ed].
  unfold animate_selection, ui_bind, update_ui, gets, ui_ret. cbn [fst snd].
  fold (pulse_cancelled a'). rewrite Ec. change (task_card_widgets a') with (task_card_widgets a).
  rewrite Hfind, Ed. change (appearance_dark a') with (appearance_dark a).
  apply find_some in Hc as [_ Hw]. apply Nat.eqb_eq in Hw. rewrite Hw.
  unfold pulsing, step, update_ui, after, configure_fg, pulse_shade. cbn.
  rewrite Ec, Ht. split; [reflexivity|]. eexists. split; reflexivity.
Qed.

Lemma pulse_on_pulsing (w : nat) (former shade : string) (cards : list card_widget)
    (n : nat) (b : app) :
  (S n <= steps)%nat ->
  pulsing w former shade cards n b -> pulsing w former shade cards (S n) (pulse_on b).
Proof.
  intros Hn [Hc Ht]. apply Nat.leb_le in Hn. rewrite Hn in Ht.
  destruct Ht as (i & Hp & Ht).
  unfold pulse_on. rewrite Hp.
  unfold handle, handler, timer_fires, ui_bind, gets, update_ui. cbn [fst snd].
  rewrite Ht. cbn [find fst]. rewrite Nat.eqb_refl.
  unfold pulsing, step, update_ui, after, after_cancel, configure_fg.
  cbn [snd next_step target base pulse_color].
  destruct (S (S n) <=? steps)%nat; cbn; rewrite Ht; cbn; rewrite Nat.eqb_refl; cbn;
    rewrite Hc, map_map.
  - split; [|eexists; split; reflexivity].
    apply map_ext. intros c.
    destruct (Nat.eqb (widget c) w) eqn:E; cbn [with_fg_color widget]; now rewrite E.
  - split; [|split; reflexivity].
    apply map_ext. intros c.
    destruct (Nat.eqb (widget c) w) eqn:E; cbn [with_fg_color widget]; now rewrite E.
Qed.

(** X17: in a window whose cards show the listing of a store with pairwise
    different ids and where at most one pulse is under way, View on a card
    starts the pulse of [animate_selection]: the card takes the pulse shade
    of the theme, and each time the pending timer fires it changes between
    its former colour (odd steps) and the shade (even steps), the other
    cards being left alone.  A timer is pending after each of the steps 0
    to 5; after step 6 none is, and the card is left in the pulse shade,
    not in its former colour. *)
Theorem selection_pulse (a : app) (w : nat) (c : card_widget) (n : nat) :
  one_pulse a -> primary_key (db_file a) -> in_sync a -> card_of w a = Some c ->
  (n <= steps)%nat ->
  pulsing w (fg_color c) (pulse_shade (appearance_dark a)) (task_card_widgets a) n
          (Nat.iter n pulse_on (handle (click_view w) a)).
Proof.
  intros H1 Hpk Hs Hc. induction n as [|n IH]; intros Hn.
  - now apply view_starts_pulse.
  - cbn [Nat.iter]. apply pulse_on_pulsing; [exact Hn|]. apply IH. lia.
Qed.

Lemma selection_pulse_witness :
  pulsing 1 (card_bg milk false) (pulse_shade false)
          [render_card false 1 milk] steps
          (Nat.iter steps pulse_on (handle (click_view 1) (started milk_db no_files))).
Proof.
  apply (selection_pulse (started milk_db no_files) 1%nat (render_card false 1 milk) steps).
  - reflexivity.
  - exact (proj1 milk_db_tidy).
  - exact started_milk_in_sync.
  - reflexivity.
  - apply le_n.
Defined.

(** ** The events that only read *)

Lemma step_store (s : store) (p : pulse) : keeps (store_is s) (step p).
Proof.
  intros a H. unfold step, update_ui. cbn [snd].
  destruct (S (next_step p) <=? steps)%nat; exact H.
Qed.

Lemma animate_selection_store (s : store) (task_id : Z) :
  keeps (store_is s) (animate_selection task_id).
Proof.
  unfold animate_selection. apply keeps_bind.
  - apply keeps_update. intros a H. now destruct (pulse_after_id a).
  - intros _. apply keeps_bind; [apply keeps_gets|]. intros cards.
    destruct (find _ cards); [|apply keeps_ret].
    apply keeps_bind; [apply keeps_gets|]. intros is_dark. apply step_store.
Qed.

Lemma timer_fires_store (s : store) (i : nat) : keeps (store_is s) (timer_fires i).
Proof.
  unfold timer_fires. apply keeps_bind; [apply keeps_gets|]. intros pending.
  destruct (find _ pending) as [[j p]|]; [|apply keeps_ret].
  apply keeps_bind; [|intros _; apply step_store].
  apply keeps_update. intros a H. exact H.
Qed.

Ltac keeps_store :=
  repeat first
    [ match goal with
      | |- keeps _ (ui_ret _) => apply keeps_ret
      | |- keeps _ (gets _) => apply keeps_gets
      | |- keeps _ (query _) => apply keeps_query
      | |- keeps _ (animate_selection _) => apply animate_selection_store
      | |- keeps _ (timer_fires _) => apply timer_fires_store
      | |- keeps _ (update_ui _) => apply keeps_update; intros ? H; exact H
      | |- keeps _ (ui_bind _ _) => apply keeps_bind; [|intros ?]
      end
    | keeps_cases ].

Lemma on_task_selected_store (s : store) (task_id : Z) :
  keeps (store_is s) (on_task_selected task_id).
Proof. unfold on_task_selected. keeps_store. Qed.

Lemma refresh_tasks_store (s : store) : keeps (store_is s) refresh_tasks.
Proof.
  unfold refresh_tasks. keeps_store;
    [apply on_task_selected_store | unfold clear_details; keeps_store].
Qed.

Lemma export_csv_dialog_store (s : store) (path : string) (flt : fault) :
  keeps (store_is s) (export_csv_dialog path flt).
Proof.
  unfold export_csv_dialog. destruct (String.eqb path ""); [apply keeps_ret|].
  intros a Ha.
  destruct (export_tasks_to_csv path (db_file a) flt (disk a)) as [[[ok msg]|x] fs];
    exact Ha.
Qed.

Lemma reading_store (s : store) (e : event) :
  may_write e = false -> keeps (store_is s) (handler e).
Proof.
  destruct e; try discriminate; intros Hw; cbn in Hw; subst;
    unfold handler, set_form_field, set_details_field, on_card, on_frame,
      toggle_dark_mode, apply_theme, delete_selected_task, delete_and_reload, show;
    repeat first
      [ match goal with
        | |- keeps _ refresh_tasks => apply refresh_tasks_store
        | |- keeps _ (on_task_selected _) => apply on_task_selected_store
        | |- keeps _ (export_csv_dialog _ _) => apply export_csv_dialog_store
        end
      | progress keeps_store ].
Qed.

(** X18: typing, searching, choosing an order, Refresh, the theme switch,
    the export, View, a Delete answered with no and the timers of the pulse
    read the store at most: whatever the state of the window, after any
    number of such events the store is the one it was. *)
Theorem reading_leaves_the_store (es : list event) (a : app) :
  forallb (fun e => negb (may_write e)) es = true ->
  db_file (run es a) = db_file a.
Proof.
  revert a. induction es as [|e es IH]; intros a H; [reflexivity|].
  cbn [forallb] in H. apply andb_true_iff in H as [He Hes].
  apply negb_true_iff in He. cbn [run fold_left].
  change (db_file (run es (handle e a)) = db_file a).
  rewrite (IH _ Hes). now apply (reading_store (db_file a) e He a).
Qed.

Lemma reading_leaves_the_store_witness :
  db_file (run [type_search "milk"; click_view 1%nat; timer 0%nat; flip_theme_switch;
                click_delete false; click_export "tasks.csv" (OpenFails disk_full)]
               (started milk_db no_files)) = Online milk_db.
Proof.
  apply (reading_leaves_the_store
           [type_search "milk"; click_view 1%nat; timer 0%nat; flip_theme_switch;
            click_delete false; click_export "tasks.csv" (OpenFails disk_full)]
           (started milk_db no_files)).
  reflexivity.
Defined.

(** ** Names of white space *)




(** ** The task that the form adds *)





(** ** The export dialog *)

(** X21: the export of the window, for a store that can be opened: a
    cancelled file dialog does nothing at all; with a path the handler
    never raises, whatever happens to the file, and shows one message box:
    the text of the export under the title Export when it succeeded, under
    the title Export Error when it failed. *)
Theorem export_dialog_reports (a : app) (path : string) (flt : fault) :
  online a ->
  (path = EmptyString -> handler (click_export path flt) a = (Returns tt, a)) /\
  (path <> EmptyString ->
   exists ok msg fs,
     export_tasks_to_csv path (db_file a) flt (disk a) = (Returns (ok, msg), fs) /\
     handler (click_export path flt) a =
       (Returns tt,
        told (if ok then showinfo "Export" msg else showerror "Export Error" msg)
             (set_disk fs a))).
Proof.
  intros [d Hd]. unfold handler, export_csv_dialog. split.
  - intros ->. reflexivity.
  - intros Hp. destruct (String.eqb_spec path "") as [E|_]; [contradiction|].
    rewrite Hd. unfold export_tasks_to_csv.
    cbn [get_tasks get_connection bind truthy String.eqb negb].
    destruct (open_w path flt (disk a)) as [fs0|e].
    + destruct (writerows flt 0 _ EmptyString) as [[u|e] f];
        do 3 eexists; split; reflexivity.
    + do 3 eexists; split; reflexivity.
Qed.

Lemma export_dialog_reports_witness :
  handler (click_export "" NoFault) (started milk_db no_files) =
    (Returns tt, started milk_db no_files) /\
  exists ok msg fs,
    export_tasks_to_csv "tasks.csv" (db_file (started milk_db no_files))
                        (OpenFails disk_full) (disk (started milk_db no_files)) =
      (Returns (ok, msg), fs) /\
    handler (click_export "tasks.csv" (OpenFails disk_full)) (started milk_db no_files) =
      (Returns tt,
       told (if ok then showinfo "Export" msg else showerror "Export Error" msg)
            (set_disk fs (started milk_db no_files))).
Proof.
  split.
  - apply (export_dialog_reports (started milk_db no_files) "" NoFault);
      [apply started_online | reflexivity].
  - apply (export_dialog_reports (started milk_db no_files) "tasks.csv"
             (OpenFails disk_full)); [apply started_online | discriminate].
Defined.

(** ** A database file that cannot be opened *)



(** ** Edits that are not saved *)




(** ** The mouse over a card *)

(** X24: when the mouse has entered a card and left it again, every card
    has the colour it had before, whatever that was (the colour of its
    priority or the shade of a pulse), and nothing else in the window has
    changed; the card has only put that colour by in [_prev_bg]. *)
Theorem hover_gives_the_colour_back (a : app) (w : nat) :
  run [mouse_enter w; mouse_leave w] a =
  set_task_card_widgets
    (map (fun c => if Nat.eqb (widget c) w then remembering c else c)
         (task_card_widgets a)) a.
Proof.
  unfold run, handle, handler, on_frame, update_ui. cbn.
  unfold set_task_card_widgets. cbn. f_equal.
  rewrite map_map. apply map_ext. intros c.
  destruct (Nat.eqb (widget c) w) eqn:E; [|now rewrite E].
  cbn [on_enter widget]. rewrite E. reflexivity.
Qed.

(** ** The window at its start *)

